(** * Verification of the BNN training orchestrator

    Shallow embedding of [main] from [src/experiments/train_bnn.py]: the
    configuration checks, the initialisation / checkpoint-resume branch, the
    scoped sinks around the sampling run, the schedule computation, the
    dispatch on the inference mode and the final evaluation.

    Python integers are [Z] ([//] and [%] are floor division and modulo,
    which is what [Z.div] and [Z.modulo] compute); Python floats that are
    only compared with zero or passed on are rationals; a Python [dict] is an
    insertion-ordered association list; exceptions are an error result and
    everything the function does to its collaborators is recorded, in order,
    in a trace of events. *)

From Stdlib Require Import ZArith QArith List String Bool Lia.
Import ListNotations.

Local Open Scope string_scope.
Local Open Scope list_scope.
Local Open Scope Z_scope.

Set Implicit Arguments.

(* ================================================================== *)
(** ** Exceptions, events and the trace monad *)
(* ================================================================== *)

(** The [assert] statements of [main], by what they check. *)
Inductive assertion : Type :=
| A_inference      (* line 117 *)
| A_width          (* line 118 *)
| A_n_samples      (* line 119 *)
| A_cycles         (* line 120 *)
| A_temperature    (* line 121 *)
| A_divisible.     (* line 192 *)

Inductive exn : Type :=
| AssertionError (a : assertion)
| ValueError (msg : string)          (* line 143 *)
| RuntimeError (msg : string)        (* dict iterator, line 147 *)
| KeyError (k : string)
| TypeError (msg : string)           (* min(None, int), line 211 *)
| UnboundLocalError (name : string)
| ZeroDivisionError
| ExternalError (msg : string).      (* raised inside a collaborator *)

Inductive result (A : Type) : Type :=
| Ret (a : A)
| Raise (e : exn).
Arguments Ret {A} a.
Arguments Raise {A} e.

Definition key := string.

(** A tensor, as far as [main] looks at it: its [size()] and its contents. *)
Record tensor : Type := mkTensor { size : list Z; elements : list Z }.

(** A Python [dict] from parameter names to tensors, in insertion order. *)
Definition dict := list (key * tensor).

Inductive warning : Type :=
| KeyNotInModel (k : key)                                    (* line 149 *)
| SizeMismatch (k : key) (model_size loaded_size : list Z)   (* line 152 *)
| KeysNotFound (missing : list key).                         (* line 156 *)

Inductive sink : Type := MetricsSink | SampleSink.

Inductive init_scheme : Type := He | HeUniform | HeZeroBias.

Inductive runner_class : Type :=
| SGLDRunner | VerletSGLDRunner | HMCRunner
| VerletSGLDRunnerReject | HMCRunnerReject.

Inductive split : Type := TrainSplit | TestSplit.

(** Keyword arguments of the runner constructor, lines 201-205. *)
Record runner_args : Type := mkRunnerArgs {
  ra_epochs_per_cycle : Z;
  ra_warmup_epochs : Z;
  ra_sample_epochs : Z;
  ra_learning_rate : Q;
  ra_skip : Z;
  ra_metrics_skip : Z;
  ra_sampling_decay : string;
  ra_cycles : Z;
  ra_temperature : Q;
  ra_momentum : Q;
  ra_precond_update : Z;
  ra_metrics_saver : sink;
  ra_model_saver : option sink;
  ra_reject_samples : bool
}.

Inductive event : Type :=
| EvGetData
| EvGetModel
| EvInitialize (s : init_scheme)
| EvLoadSamples (path : string)
| EvWarning (w : warning)
| EvLoadStateDict (sd : dict)
| EvOpen (s : sink)
| EvWrite (s : sink) (record : Z)
| EvClose (s : sink)
| EvGetPotential (eff_num_data : Z)
| EvHMCKernel (adapt_step_size adapt_mass_matrix : bool)
              (step_size : Q) (num_steps : Z)
| EvMCMC (num_samples warmup_steps : Z)
| EvDataLoader (s : split) (batch_size : Z) (shuffle : bool) (num_workers : Z)
| EvRunner (cls : runner_class) (args : runner_args)
| EvRun (progressbar : bool)
| EvGetSamples
| EvModelEval
| EvEvaluate.

(** A computation: the events it performed, then its value or the exception
    that ended it. *)
Definition M (A : Type) : Type := (list event * result A)%type.

Definition ret {A} (a : A) : M A := ([], Ret a).
Definition raise {A} (e : exn) : M A := ([], Raise e).
Definition emit (ev : event) : M unit := ([ev], Ret tt).

Definition bind {A B} (m : M A) (f : A -> M B) : M B :=
  match m with
  | (t1, Ret a) => let (t2, r) := f a in (t1 ++ t2, r)
  | (t1, Raise e) => (t1, Raise e)
  end.

Notation "x <- c1 ;; c2" := (bind c1 (fun x => c2))
  (at level 61, c1 at next level, right associativity).
Notation "c1 ;; c2" := (bind c1 (fun _ => c2))
  (at level 61, right associativity).

Definition py_assert (b : bool) (a : assertion) : M unit :=
  if b then ret tt else raise (AssertionError a).

(** [try: m finally: cleanup]; the cleanup runs on both exits and the
    exception of [m], if any, is raised again after it. *)
Definition finally {A} (m : M A) (cleanup : M unit) : M A :=
  let (t1, r) := m in
  match cleanup with
  | (t2, Ret _) => (t1 ++ t2, r)
  | (t2, Raise e) => (t1 ++ t2, Raise e)
  end.

(** [with enter as r: body]: nothing is released when [enter] itself fails;
    the exit hook does not swallow exceptions. *)
Definition py_with {R A} (enter : M R) (exit_ : R -> M unit)
           (body : R -> M A) : M A :=
  r <- enter ;; finally (body r) (exit_ r).

(* ================================================================== *)
(** ** Python dictionaries *)
(* ================================================================== *)

Fixpoint dict_get (k : key) (d : dict) : option tensor :=
  match d with
  | [] => None
  | (k', v) :: d' => if String.eqb k k' then Some v else dict_get k d'
  end.

(** [k in d] *)
Definition dict_contains (k : key) (d : dict) : bool :=
  match dict_get k d with Some _ => true | None => false end.

Definition dict_keys (d : dict) : list key := map fst d.

(** [d[k] = v]: an existing key keeps its place, a new one goes last. *)
Fixpoint dict_setitem (k : key) (v : tensor) (d : dict) : dict :=
  match d with
  | [] => [(k, v)]
  | (k', v') :: d' =>
      if String.eqb k k' then (k', v) :: d' else (k', v') :: dict_setitem k v d'
  end.

(** [del d[k]] *)
Fixpoint dict_delitem (k : key) (d : dict) : dict :=
  match d with
  | [] => []
  | (k', v') :: d' =>
      if String.eqb k k' then d' else (k', v') :: dict_delitem k d'
  end.

(** [d.update(other)] *)
Definition dict_update (d other : dict) : dict :=
  fold_left (fun acc kv => dict_setitem (fst kv) (snd kv) acc) other d.

(** [d[k]] as an expression. *)
Definition getitem (k : key) (d : dict) : M tensor :=
  match dict_get k d with
  | Some v => ret v
  | None => raise (KeyError k)
  end.

(** A dictionary never holds a key twice. *)
Fixpoint uniq (l : list key) : bool :=
  match l with
  | [] => true
  | k :: l' => negb (existsb (String.eqb k) l') && uniq l'
  end.

Definition wf_dict (d : dict) : bool := uniq (dict_keys d).

(** Equality of two [torch.Size] values. *)
Fixpoint size_eqb (s1 s2 : list Z) : bool :=
  match s1, s2 with
  | [], [] => true
  | a :: s1', b :: s2' => Z.eqb a b && size_eqb s1' s2'
  | _, _ => false
  end.

(* ================================================================== *)
(** ** Checkpoint reconciliation, lines 145-160 *)
(* ================================================================== *)

Definition dict_changed_size : exn :=
  RuntimeError "dictionary changed size during iteration".

(** The [for k in state_dict.keys()] loop of lines 147-153.  A dict
    iterator remembers the number of entries the dict had when the loop
    started ([di_used]) and compares it with the current number every time
    the loop asks for the next key, before it looks whether any key is left;
    a difference raises [RuntimeError].  Replacing the value of an existing
    key leaves both the number and the order of the entries alone, so until
    an entry is deleted the keys still to come are the ones that were
    [pending] when the loop started. *)
Fixpoint reconcile_loop (di_used : nat) (pending : list key)
         (model_sd state_dict : dict) : M dict :=
  if negb (Nat.eqb (List.length state_dict) di_used) then
    raise dict_changed_size
  else
    match pending with
    | [] => ret state_dict
    | k :: rest =>
        if negb (dict_contains k model_sd) then
          emit (EvWarning (KeyNotInModel k)) ;;
          reconcile_loop di_used rest model_sd (dict_delitem k state_dict)
        else
          m <- getitem k model_sd ;;
          l <- getitem k state_dict ;;
          if negb (size_eqb (size m) (size l)) then
            emit (EvWarning (SizeMismatch k (size m) (size l))) ;;
            reconcile_loop di_used rest model_sd (dict_setitem k m state_dict)
          else
            reconcile_loop di_used rest model_sd state_dict
    end.

(** [set(model_sd.keys()) - set(state_dict.keys())], listed in the order of
    [model_sd]. *)
Definition missing_keys (model_sd state_dict : dict) : list key :=
  filter (fun k => negb (dict_contains k state_dict)) (dict_keys model_sd).

(** Lines 146-158: the store handed to [model.load_state_dict]. *)
Definition reconcile (model_sd state_dict : dict) : M dict :=
  state_dict' <- reconcile_loop (List.length state_dict) (dict_keys state_dict)
                                model_sd state_dict ;;
  emit (EvWarning (KeysNotFound (missing_keys model_sd state_dict'))) ;;
  let model_sd' := dict_update model_sd state_dict' in
  emit (EvLoadStateDict model_sd') ;;
  ret model_sd'.

(* ================================================================== *)
(** ** Configuration and collaborators *)
(* ================================================================== *)

(** The captured configuration values [main] reads. *)
Record Config : Type := mkConfig {
  inference : string;
  width : Z;
  n_samples : Z;
  warmup : Z;
  init_method : string;
  burnin : Z;
  skip : Z;
  metrics_skip : Z;
  cycles : Z;
  temperature : Q;
  momentum : Q;
  precond_update : Z;
  lr : Q;
  batch_size : option Z;
  load_samples : option string;
  save_samples : bool;
  reject_samples : bool;
  sampling_decay : string;
  progressbar : bool
}.

(** What the collaborators of [main] answer during one run. *)
Record Env : Type := mkEnv {
  train_len : nat;                    (* len(data.norm.train), len(x_train) *)
  test_len : nat;                     (* len(data.norm.test) *)
  train_is_tensor_dataset : bool;     (* isinstance(..., TensorDataset) *)
  fresh_state_dict : dict;            (* model.state_dict() *)
  checkpoint : option dict;           (* exp_utils.load_samples; None: unreadable *)
  metrics_openable : bool;            (* metrics.h5 can be opened for writing *)
  samples_openable : bool;            (* samples.pt can be opened for writing *)
  run_writes : list (sink * Z);       (* records the sampler writes, in order *)
  run_failure : option string         (* the exception ending run(), if any *)
}.

(** Modelled from the spec: [exp_utils.load_samples] is not among the
    sources.  It returns the loaded store as a plain Python mapping (section
    3, ParameterStore) and fails on a file it cannot read. *)
Definition exp_load_samples (path : string) (env : Env) : M dict :=
  emit (EvLoadSamples path) ;;
  match checkpoint env with
  | Some sd => ret sd
  | None => raise (ExternalError "load_samples")
  end.

(** Modelled from the spec: [exp_utils.HDF5Metrics] and
    [exp_utils.HDF5ModelSaver] are not among the sources.  Section 6 asks of
    a sink scoped acquisition with guaranteed close: entering opens the
    handle or fails, leaving flushes and closes it. *)
Definition sink_enter (s : sink) (openable : bool) : M sink :=
  if openable then emit (EvOpen s) ;; ret s
  else raise (ExternalError "cannot open sink").

Definition sink_exit (s : sink) : M unit := emit (EvClose s).

(** Lines 162-168: the sample sink, or the placeholder context manager that
    yields [None]. *)
Definition model_saver_enter (cfg : Config) (env : Env) : M (option sink) :=
  if save_samples cfg then
    s <- sink_enter SampleSink (samples_openable env) ;; ret (Some s)
  else ret None.

Definition model_saver_exit (r : option sink) : M unit :=
  match r with
  | Some s => sink_exit s
  | None => ret tt
  end.

(** The object bound to [mcmc]: the library sampler around the HMC kernel,
    or one of the runners together with the sinks it was given. *)
Inductive sampler : Type :=
| PyroMCMC
| Runner (cls : runner_class) (sinks : list sink).

Definition sink_eqb (a b : sink) : bool :=
  match a, b with
  | MetricsSink, MetricsSink | SampleSink, SampleSink => true
  | _, _ => false
  end.

Definition sampler_sinks (s : sampler) : list sink :=
  match s with
  | PyroMCMC => []
  | Runner _ sinks => sinks
  end.

Definition write_events (sinks : list sink) (ws : list (sink * Z)) : list event :=
  map (fun w => EvWrite (fst w) (snd w))
      (filter (fun w => existsb (sink_eqb (fst w)) sinks) ws).

(** [mcmc.run(progressbar=...)], line 207.  The sampler is a collaborator:
    it writes records to the sinks it holds and then returns or raises. *)
Definition sampler_run (s : sampler) (pb : bool) (env : Env) : M unit :=
  emit (EvRun pb) ;;
  (write_events (sampler_sinks s) (run_writes env), Ret tt) ;;
  match run_failure env with
  | Some msg => raise (ExternalError msg)
  | None => ret tt
  end.

(* ================================================================== *)
(** ** The schedule, lines 192-194 *)
(* ================================================================== *)

(** [a % b] and [a // b] on Python integers. *)
Definition py_mod (a b : Z) : M Z :=
  if b =? 0 then raise ZeroDivisionError else ret (a mod b).

Definition py_floordiv (a b : Z) : M Z :=
  if b =? 0 then raise ZeroDivisionError else ret (a / b).

Definition schedule (n_samples skip cycles warmup burnin : Z) : M (Z * Z) :=
  r <- py_mod (n_samples * skip) cycles ;;
  py_assert (r =? 0) A_divisible ;;
  sample_epochs <- py_floordiv (n_samples * skip) cycles ;;
  let epochs_per_cycle := warmup + burnin + sample_epochs in
  ret (sample_epochs, epochs_per_cycle).

(* ================================================================== *)
(** ** [main], lines 113-214 *)
(* ================================================================== *)

Definition valid_inference : list string :=
  ["SGLD"; "HMC"; "VerletSGLD"; "OurHMC"; "HMCReject"; "VerletSGLDReject"].

(** Lines 117-121. *)
Definition validate (cfg : Config) : M unit :=
  py_assert (existsb (String.eqb (inference cfg)) valid_inference) A_inference ;;
  py_assert (0 <? width cfg) A_width ;;
  py_assert (0 <? n_samples cfg) A_n_samples ;;
  py_assert (0 <? cycles cfg) A_cycles ;;
  py_assert (Qle_bool 0 (temperature cfg)) A_temperature.

(** Lines 134-143. *)
Definition initialize (init_method : string) : M unit :=
  if String.eqb init_method "he" then emit (EvInitialize He)
  else if String.eqb init_method "he_uniform" then emit (EvInitialize HeUniform)
  else if String.eqb init_method "he_zerobias" then emit (EvInitialize HeZeroBias)
  else if String.eqb init_method "prior" then ret tt
  else raise (ValueError (String.append "unknown init_method=" init_method)).

(** Lines 133-160. *)
Definition initialize_or_resume (cfg : Config) (env : Env) : M unit :=
  match load_samples cfg with
  | None => initialize (init_method cfg)
  | Some path =>
      state_dict <- exp_load_samples path env ;;
      let model_sd := fresh_state_dict env in
      reconcile model_sd state_dict ;;
      ret tt
  end.

(** Lines 181-190; [None] when no branch binds [runner_class]. *)
Definition select_runner (inference : string) : option runner_class :=
  if String.eqb inference "SGLD" then Some SGLDRunner
  else if String.eqb inference "VerletSGLD" then Some VerletSGLDRunner
  else if String.eqb inference "OurHMC" then Some HMCRunner
  else if String.eqb inference "VerletSGLDReject" then Some VerletSGLDRunnerReject
  else if String.eqb inference "HMCReject" then Some HMCRunnerReject
  else None.

(** The fixed arguments of the library kernel, lines 177-178. *)
Definition hmc_step_size : Q := 1 # 1000.
Definition hmc_num_steps : Z := 32.

Definition saver_sinks (metrics_saver : sink) (model_saver : option sink)
  : list sink :=
  metrics_saver :: match model_saver with Some s => [s] | None => [] end.

(** Lines 173-205: the sampler and the value [batch_size] has afterwards. *)
Definition build_sampler (cfg : Config) (env : Env)
           (metrics_saver : sink) (model_saver : option sink)
  : M (sampler * option Z) :=
  if String.eqb (inference cfg) "HMC" then
    emit (EvGetPotential (Z.of_nat (train_len env))) ;;
    emit (EvHMCKernel false false hmc_step_size hmc_num_steps) ;;
    emit (EvMCMC (n_samples cfg) (warmup cfg)) ;;
    ret (PyroMCMC, batch_size cfg)
  else
    let runner_class := select_runner (inference cfg) in
    se <- schedule (n_samples cfg) (skip cfg) (cycles cfg)
                   (warmup cfg) (burnin cfg) ;;
    let sample_epochs := fst se in
    let epochs_per_cycle := snd se in
    let batch_size :=
      match batch_size cfg with
      | None => Z.of_nat (train_len env)
      | Some b => b
      end in
    let num_workers := if train_is_tensor_dataset env then 0 else 2 in
    emit (EvDataLoader TrainSplit batch_size true num_workers) ;;
    emit (EvDataLoader TestSplit batch_size false num_workers) ;;
    cls <- match runner_class with
           | Some c => ret c
           | None => raise (UnboundLocalError "runner_class")
           end ;;
    emit (EvRunner cls
            (mkRunnerArgs epochs_per_cycle (warmup cfg) sample_epochs (lr cfg)
               (skip cfg) (metrics_skip cfg) (sampling_decay cfg) (cycles cfg)
               (temperature cfg) (momentum cfg) (precond_update cfg)
               metrics_saver model_saver (reject_samples cfg))) ;;
    ret (Runner cls (saver_sinks metrics_saver model_saver), Some batch_size).

(** Lines 173-207: the body of the [with] statement. *)
Definition sampling_body (cfg : Config) (env : Env)
           (metrics_saver : sink) (model_saver : option sink)
  : M (sampler * option Z) :=
  mb <- build_sampler cfg env metrics_saver model_saver ;;
  sampler_run (fst mb) (progressbar cfg) env ;;
  ret mb.

(** Lines 162-207: both sinks scoped around the body. *)
Definition sampling_block (cfg : Config) (env : Env) : M (sampler * option Z) :=
  py_with (sink_enter MetricsSink (metrics_openable env)) sink_exit
    (fun metrics_saver =>
       py_with (model_saver_enter cfg env) model_saver_exit
         (fun model_saver => sampling_body cfg env metrics_saver model_saver)).

(** [min(batch_size, n)], line 211. *)
Definition py_min (batch_size : option Z) (n : Z) : M Z :=
  match batch_size with
  | Some b => ret (Z.min b n)
  | None =>
      raise (TypeError
        "'<' not supported between instances of 'int' and 'NoneType'")
  end.

(** Lines 208-214. *)
Definition evaluate (env : Env) (batch_size : option Z) : M unit :=
  emit EvGetSamples ;;
  emit EvModelEval ;;
  batch_size' <- py_min batch_size (Z.of_nat (test_len env)) ;;
  emit (EvDataLoader TestSplit batch_size' false 0) ;;
  emit EvEvaluate.

(** Lines 117-160: everything before the sinks are opened.  [get_data()]
    and [get_model()] are calls into the data and model collaborators; the
    trace records that they were made. *)
Definition prepare (cfg : Config) (env : Env) : M unit :=
  validate cfg ;;
  emit EvGetData ;;
  emit EvGetModel ;;
  initialize_or_resume cfg env.

Definition main (cfg : Config) (env : Env) : M unit :=
  prepare cfg env ;;
  mb <- sampling_block cfg env ;;
  evaluate env (snd mb).

(** The values of [config()], lines 40-76, with the inference mode, the
    initialisation scheme and the checkpoint path left open. *)
Definition default_config (inference init_method : string)
           (load_samples : option string) : Config :=
  {| inference := inference; width := 50; n_samples := 1000; warmup := 2000;
     init_method := init_method; burnin := 2000; skip := 5; metrics_skip := 10;
     cycles := 5; temperature := 1; momentum := 9 # 10; precond_update := 1;
     lr := 5 # 10000; batch_size := None; load_samples := load_samples;
     save_samples := true; reject_samples := false;
     sampling_decay := "cosine"; progressbar := true |}.

(* ================================================================== *)
(** ** Observations on traces and exceptions *)
(* ================================================================== *)

Definition is_open (ev : event) : bool :=
  match ev with EvOpen _ => true | _ => false end.

Definition is_close (ev : event) : bool :=
  match ev with EvClose _ => true | _ => false end.

Definition is_close_of (s : sink) (ev : event) : bool :=
  match ev with EvClose s' => sink_eqb s s' | _ => false end.

Definition is_write (ev : event) : bool :=
  match ev with EvWrite _ _ => true | _ => false end.

Definition is_kernel (ev : event) : bool :=
  match ev with EvHMCKernel _ _ _ _ => true | _ => false end.

Definition is_runner (ev : event) : bool :=
  match ev with EvRunner _ _ => true | _ => false end.

Definition is_loader (ev : event) : bool :=
  match ev with EvDataLoader _ _ _ _ => true | _ => false end.

Definition is_initialize (ev : event) : bool :=
  match ev with EvInitialize _ => true | _ => false end.

(** Constructing a sampler or running it. *)
Definition is_sampling (ev : event) : bool :=
  match ev with
  | EvHMCKernel _ _ _ _ | EvMCMC _ _ | EvRunner _ _ | EvRun _ | EvWrite _ _ => true
  | _ => false
  end.

(** Number of events of a trace that satisfy [p]. *)
Definition count (p : event -> bool) (tr : list event) : nat :=
  List.length (filter p tr).

(** No event of the trace satisfies [p]. *)
Definition never (p : event -> bool) (tr : list event) : bool :=
  forallb (fun ev => negb (p ev)) tr.

(** The errors section 7 of the specification files under
    ConfigurationError: a failed [assert] of [main] and the [ValueError] of
    line 143. *)
Definition is_configuration_error (e : exn) : bool :=
  match e with
  | AssertionError _ | ValueError _ => true
  | _ => false
  end.

(** [sat P Q m]: every event [m] performs satisfies [P], and if [m] ends in
    an exception, the exception satisfies [Q]. *)
Definition sat {A} (P : event -> bool) (Q : exn -> bool) (m : M A) : Prop :=
  forallb P (fst m) = true /\
  match snd m with Raise e => Q e = true | Ret _ => True end.

(** What lines 151-153 leave under a key of the loaded store: the loaded
    tensor when the model has the key with the same size, the model's tensor
    when the sizes differ. *)
Definition resolve (model_sd : dict) (kv : key * tensor) : key * tensor :=
  match dict_get (fst kv) model_sd with
  | Some m => if size_eqb (size m) (size (snd kv)) then kv else (fst kv, m)
  | None => kv
  end.

(** The warnings of line 152 for a loaded store, in its order. *)
Definition mismatch_warnings (model_sd state_dict : dict) : list event :=
  flat_map
    (fun kv =>
       match dict_get (fst kv) model_sd with
       | Some m =>
           if size_eqb (size m) (size (snd kv)) then []
           else [EvWarning (SizeMismatch (fst kv) (size m) (size (snd kv)))]
       | None => []
       end)
    state_dict.

(** Every key of the loaded store is a key of the model. *)
Definition all_known (model_sd state_dict : dict) : bool :=
  forallb (fun k => dict_contains k model_sd) (dict_keys state_dict).

Definition is_warning (ev : event) : bool :=
  match ev with EvWarning _ => true | _ => false end.

Definition is_load_state_dict (ev : event) : bool :=
  match ev with EvLoadStateDict _ => true | _ => false end.

Definition is_size_mismatch_of (k : key) (msz lsz : list Z) (ev : event) : bool :=
  match ev with
  | EvWarning (SizeMismatch k' msz' lsz') =>
      String.eqb k k' && size_eqb msz msz' && size_eqb lsz lsz'
  | _ => false
  end.

(** The exceptions of the dictionary operations of lines 147-153. *)
Definition is_dict_error (e : exn) : bool :=
  match e with RuntimeError _ | KeyError _ => true | _ => false end.

(** The configuration with another sample count, skip and cycle count. *)
Definition with_schedule (cfg : Config) (n s c : Z) : Config :=
  {| inference := inference cfg; width := width cfg; n_samples := n;
     warmup := warmup cfg; init_method := init_method cfg;
     burnin := burnin cfg; skip := s; metrics_skip := metrics_skip cfg;
     cycles := c; temperature := temperature cfg; momentum := momentum cfg;
     precond_update := precond_update cfg; lr := lr cfg;
     batch_size := batch_size cfg; load_samples := load_samples cfg;
     save_samples := save_samples cfg; reject_samples := reject_samples cfg;
     sampling_decay := sampling_decay cfg; progressbar := progressbar cfg |}.

(** The configuration with another initialisation scheme. *)
Definition with_init_method (cfg : Config) (m : string) : Config :=
  {| inference := inference cfg; width := width cfg;
     n_samples := n_samples cfg; warmup := warmup cfg; init_method := m;
     burnin := burnin cfg; skip := skip cfg; metrics_skip := metrics_skip cfg;
     cycles := cycles cfg; temperature := temperature cfg;
     momentum := momentum cfg; precond_update := precond_update cfg;
     lr := lr cfg; batch_size := batch_size cfg;
     load_samples := load_samples cfg; save_samples := save_samples cfg;
     reject_samples := reject_samples cfg;
     sampling_decay := sampling_decay cfg; progressbar := progressbar cfg |}.

(** What [batch_size] is after lines 195-196. *)
Definition resolved_batch_size (cfg : Config) (env : Env) : Z :=
  match batch_size cfg with
  | None => Z.of_nat (train_len env)
  | Some b => b
  end.

(** The value [model_saver] is bound to inside the block. *)
Definition model_saver_of (cfg : Config) : option sink :=
  if save_samples cfg then Some SampleSink else None.

(** The events of entering and of leaving the [with] statement. *)
Definition opened (cfg : Config) : list event :=
  EvOpen MetricsSink :: if save_samples cfg then [EvOpen SampleSink] else [].

Definition closed (cfg : Config) : list event :=
  (if save_samples cfg then [EvClose SampleSink] else []) ++ [EvClose MetricsSink].

(** Both acquisitions of line 170-172 succeed. *)
Definition block_entered (cfg : Config) (env : Env) : bool :=
  metrics_openable env && (negb (save_samples cfg) || samples_openable env).

(** A checkpoint path is given. *)
Definition resuming (cfg : Config) : bool :=
  match load_samples cfg with Some _ => true | None => false end.

(** What lines 117-160 can do and how they can fail, with and without a
    checkpoint path. *)
Definition is_prepare_event (resume : bool) (ev : event) : bool :=
  match ev with
  | EvGetData | EvGetModel => true
  | EvInitialize _ => negb resume
  | EvLoadSamples _ | EvWarning _ | EvLoadStateDict _ => resume
  | _ => false
  end.

Definition is_prepare_exn (resume : bool) (e : exn) : bool :=
  match e with
  | AssertionError A_divisible => false
  | AssertionError _ => true
  | ValueError _ => negb resume
  | RuntimeError _ | KeyError _ | ExternalError _ => resume
  | _ => false
  end.

(** What lines 173-207 can do and how they can fail. *)
Definition is_body_event (ev : event) : bool :=
  match ev with
  | EvGetPotential _ | EvHMCKernel _ _ _ _ | EvMCMC _ _ | EvDataLoader _ _ _ _
  | EvRunner _ _ | EvRun _ | EvWrite _ _ => true
  | _ => false
  end.

Definition is_block_event (ev : event) : bool :=
  is_body_event ev || is_open ev || is_close ev.

Definition is_block_exn (e : exn) : bool :=
  match e with
  | AssertionError A_divisible | ZeroDivisionError | UnboundLocalError _
  | ExternalError _ => true
  | _ => false
  end.

(** What lines 208-214 can do and how they can fail. *)
Definition is_evaluate_event (ev : event) : bool :=
  match ev with
  | EvGetSamples | EvModelEval | EvDataLoader TestSplit _ false 0 | EvEvaluate => true
  | _ => false
  end.

Definition is_type_error (e : exn) : bool :=
  match e with TypeError _ => true | _ => false end.

Definition is_main_event (cfg : Config) (ev : event) : bool :=
  is_prepare_event (resuming cfg) ev || is_block_event ev || is_evaluate_event ev.

Definition is_main_exn (cfg : Config) (e : exn) : bool :=
  is_prepare_exn (resuming cfg) e || is_block_exn e || is_type_error e.

(** The kernel event with the arguments of lines 176-178. *)
Definition is_fixed_kernel (ev : event) : bool :=
  match ev with
  | EvHMCKernel false false step_size num_steps =>
      Qeq_bool step_size (1 # 1000) && (num_steps =? 32)
  | _ => false
  end.

(* ================================================================== *)
(** ** Sample stores and runs *)
(* ================================================================== *)

Module Samples.

Definition weight_2x3 : tensor := mkTensor [2; 3] [1; 2; 3; 4; 5; 6].
Definition weight_4x3 : tensor :=
  mkTensor [4; 3] [7; 7; 7; 7; 7; 7; 7; 7; 7; 7; 7; 7].
Definition bias_3 : tensor := mkTensor [3] [0; 0; 0].
Definition bias_3' : tensor := mkTensor [3] [9; 8; 7].
Definition stale : tensor := mkTensor [1] [42].

(** A fresh model with a weight and a bias. *)
Definition model_store : dict := [("w", weight_2x3); ("b", bias_3)].

(** A checkpoint of a wider model: the weight has another size. *)
Definition wider_checkpoint : dict := [("w", weight_4x3); ("b", bias_3')].

(** A checkpoint that holds nothing but a parameter the model lacks. *)
Definition foreign_checkpoint : dict := [("extra", stale)].

(** A checkpoint with a parameter the model lacks, then the weight at
    another size. *)
Definition mixed_checkpoint : dict := [("extra", stale); ("w", weight_4x3)].

(** What reconciling [wider_checkpoint] installs. *)
Definition merged_store : dict := [("w", weight_2x3); ("b", bias_3')].

Definition quiet_env : Env :=
  {| train_len := 2000; test_len := 500; train_is_tensor_dataset := true;
     fresh_state_dict := model_store; checkpoint := Some wider_checkpoint;
     metrics_openable := true; samples_openable := true;
     run_writes := [(MetricsSink, 1); (SampleSink, 1); (MetricsSink, 2)];
     run_failure := None |}.

(** The run fails after three of the records it would have written. *)
Definition failing_env : Env :=
  {| train_len := 2000; test_len := 500; train_is_tensor_dataset := true;
     fresh_state_dict := model_store; checkpoint := Some wider_checkpoint;
     metrics_openable := true; samples_openable := true;
     run_writes := [(MetricsSink, 1); (SampleSink, 1); (MetricsSink, 2)];
     run_failure := Some "numerical instability" |}.

(** Scenario B of the specification: 100 samples, skip 5, 3 cycles. *)
Definition indivisible_config : Config :=
  with_schedule (default_config "SGLD" "he" None) 100 5 3.

End Samples.

(* ================================================================== *)
(** ** [get_data], lines 87-101 *)
(* ================================================================== *)

(** What [get_data] returns: a dataset of the provider, or the [Synthetic]
    dataset built on one. *)
Inductive dataset : Type :=
| ProvidedData (name : string)
| SyntheticData (base : dataset) (weight_prior : string)
                (batch_size : option Z).

(** What [get_data] does to its collaborators. *)
Inductive data_event : Type :=
| DvProvider (name : string)           (* exp_utils.get_data(data, device()) *)
| DvGetModel (weight_prior : string)   (* get_model(..., weight_prior=prior,
                                          weight_prior_params={}) *)
| DvSampleAllPriors                    (* model.sample_all_priors() *)
| DvSynthetic (base : dataset) (batch_size : option Z)
| DvSave (artifact : string).          (* t.save(..., sneaky_artifact(...)) *)

(** [s.split(sep)] for a separator of one character. *)
Fixpoint py_split (sep : Ascii.ascii) (s : string) : list string :=
  match s with
  | EmptyString => [EmptyString]
  | String c s' =>
      if Ascii.eqb c sep then EmptyString :: py_split sep s'
      else
        match py_split sep s' with
        | part :: parts => String c part :: parts
        | [] => [String c EmptyString]
        end
  end.

(** The character ["."], code 46. *)
Definition dot : Ascii.ascii := Ascii.ascii_of_nat 46.

(** [_, data, prior = parts], line 90. *)
Definition unpack3 (parts : list string) : result (string * string) :=
  match parts with
  | [_; data; prior] => Ret (data, prior)
  | [] => Raise (ValueError "not enough values to unpack (expected 3, got 0)")
  | [_] => Raise (ValueError "not enough values to unpack (expected 3, got 1)")
  | [_; _] =>
      Raise (ValueError "not enough values to unpack (expected 3, got 2)")
  | _ => Raise (ValueError "too many values to unpack (expected 3)")
  end.

(** [data[:9] == "synthetic"] *)
Definition is_synthetic_name (data : string) : bool :=
  String.eqb (substring 0 9 data) "synthetic".

Definition synthetic_artifacts : list data_event :=
  [DvSave "synthetic_data.pt"; DvSave "true_model.pt"].

(** Lines 88-101.  The function calls itself on the middle part of a
    synthetic name; [fuel] bounds the depth of these calls and [None] means
    it was used up.  [known] tells which identifiers the dataset provider
    has; [batch_size] is the captured configuration value. *)
Fixpoint get_data_fuel (fuel : nat) (known : string -> bool)
         (batch_size : option Z) (data : string)
  : option (list data_event * result dataset) :=
  match fuel with
  | O => None
  | S fuel' =>
      if is_synthetic_name data then
        match unpack3 (py_split dot data) with
        | Raise e => Some ([], Raise e)
        | Ret (inner, prior) =>
            match get_data_fuel fuel' known batch_size inner with
            | None => None
            | Some (t, Raise e) => Some (t, Raise e)
            | Some (t, Ret dataset) =>
                Some (t ++ [DvGetModel prior; DvSampleAllPriors;
                            DvSynthetic dataset batch_size]
                        ++ synthetic_artifacts,
                      Ret (SyntheticData dataset prior batch_size))
            end
        end
      else if known data then Some ([DvProvider data], Ret (ProvidedData data))
      else Some ([DvProvider data], Raise (ExternalError "get_data"))
  end.

Definition get_data (known : string -> bool) (batch_size : option Z)
           (data : string) : option (list data_event * result dataset) :=
  get_data_fuel (S (String.length data)) known batch_size data.

Fixpoint has_char (c : Ascii.ascii) (s : string) : bool :=
  match s with
  | EmptyString => false
  | String c' s' => Ascii.eqb c' c || has_char c s'
  end.

Fixpoint count_char (c : Ascii.ascii) (s : string) : nat :=
  match s with
  | EmptyString => O
  | String c' s' => ((if Ascii.eqb c' c then 1 else 0) + count_char c s')%nat
  end.

Definition is_save (ev : data_event) : bool :=
  match ev with DvSave _ => true | _ => false end.

(* ================================================================== *)
(** ** Further observations *)
(* ================================================================== *)

(** The tensor a successful reconciliation installs under a key, from what
    the model and the loaded store hold under it (lines 151-153 and 157). *)
Definition merge_value (m l : option tensor) : option tensor :=
  match m, l with
  | Some m', Some l' => Some (if size_eqb (size m') (size l') then l' else m')
  | Some m', None => Some m'
  | None, _ => None
  end.


(** What lines 117-121 ask of a configuration. *)
Definition valid_config (cfg : Config) : Prop :=
  In (inference cfg) valid_inference /\ 0 < width cfg /\ 0 < n_samples cfg /\
  0 < cycles cfg /\ (0 <= temperature cfg)%Q.

(** The names lines 134-141 accept. *)
Definition init_schemes : list string :=
  ["he"; "he_uniform"; "he_zerobias"; "prior"].

(** What it takes to get through lines 117-160: a valid configuration and
    either a known initialisation scheme or a readable checkpoint without a
    key the model lacks. *)
Definition reaches_block (cfg : Config) (env : Env) : Prop :=
  valid_config cfg /\
  match load_samples cfg with
  | None => In (init_method cfg) init_schemes
  | Some _ =>
      exists sd, checkpoint env = Some sd /\
                 incl (dict_keys sd) (dict_keys (fresh_state_dict env))
  end.


Definition unknown_init_method (cfg : Config) : exn :=
  ValueError (String.append "unknown init_method=" (init_method cfg)).


(** The arguments the runner is constructed with, lines 201-205. *)
Definition runner_args_of (cfg : Config) : runner_args :=
  let sample_epochs := n_samples cfg * skip cfg / cycles cfg in
  mkRunnerArgs (warmup cfg + burnin cfg + sample_epochs) (warmup cfg)
    sample_epochs (lr cfg) (skip cfg) (metrics_skip cfg) (sampling_decay cfg)
    (cycles cfg) (temperature cfg) (momentum cfg) (precond_update cfg)
    MetricsSink (model_saver_of cfg) (reject_samples cfg).

(** What a runner built by lines 181-205 does inside the block when the
    schedule passes. *)
Definition runner_body_trace (cfg : Config) (env : Env) (cls : runner_class)
  : list event :=
  let bs := resolved_batch_size cfg env in
  let nw := if train_is_tensor_dataset env then 0 else 2 in
  [EvDataLoader TrainSplit bs true nw;
   EvDataLoader TestSplit bs false nw;
   EvRunner cls (runner_args_of cfg);
   EvRun (progressbar cfg)]
  ++ write_events (saver_sinks MetricsSink (model_saver_of cfg)) (run_writes env).

(** The events of lines 208-214 for a batch size that is set. *)
Definition evaluation_trace (env : Env) (b : Z) : list event :=
  [EvGetSamples; EvModelEval;
   EvDataLoader TestSplit (Z.min b (Z.of_nat (test_len env))) false 0;
   EvEvaluate].

Definition is_get_samples (ev : event) : bool :=
  match ev with EvGetSamples => true | _ => false end.

Definition is_sampler_run (ev : event) : bool :=
  match ev with EvRun _ => true | _ => false end.

(** The life of a sink during a run. *)
Inductive sink_state : Type := Unopened | Opened | Closed.

Definition is_opened (x : sink_state) : bool :=
  match x with Opened => true | _ => false end.

(** The state of the metrics sink and of the sample sink. *)
Definition sinks_state : Type := (sink_state * sink_state)%type.

Definition state_of (st : sinks_state) (s : sink) : sink_state :=
  match s with MetricsSink => fst st | SampleSink => snd st end.

Definition set_state (st : sinks_state) (s : sink) (x : sink_state)
  : sinks_state :=
  match s with MetricsSink => (x, snd st) | SampleSink => (fst st, x) end.

(** The discipline of lines 170-172 and 207-208, checked along a trace: a
    sink is opened at most once and only closed or written to while it is
    open; a sampler is built and run only while the metrics sink is open;
    the samples are collected and evaluated only when no sink is open.
    [None] when an event breaks it. *)
Fixpoint sink_protocol (st : sinks_state) (tr : list event)
  : option sinks_state :=
  match tr with
  | [] => Some st
  | ev :: tr' =>
      match ev with
      | EvOpen s =>
          match state_of st s with
          | Unopened => sink_protocol (set_state st s Opened) tr'
          | _ => None
          end
      | EvClose s =>
          if is_opened (state_of st s)
          then sink_protocol (set_state st s Closed) tr' else None
      | EvWrite s _ =>
          if is_opened (state_of st s) then sink_protocol st tr' else None
      | EvHMCKernel _ _ _ _ | EvMCMC _ _ | EvRunner _ _ | EvRun _ =>
          if is_opened (fst st) then sink_protocol st tr' else None
      | EvGetSamples | EvModelEval | EvEvaluate =>
          if is_opened (fst st) || is_opened (snd st) then None
          else sink_protocol st tr'
      | _ => sink_protocol st tr'
      end
  end.

(** The whole trace keeps the discipline and leaves no sink open. *)
Definition follows_sink_protocol (tr : list event) : bool :=
  match sink_protocol (Unopened, Unopened) tr with
  | Some st => negb (is_opened (fst st)) && negb (is_opened (snd st))
  | None => false
  end.

(** Events that neither touch a sink nor depend on one. *)
Definition is_sink_neutral (ev : event) : bool :=
  match ev with
  | EvGetData | EvGetModel | EvInitialize _ | EvLoadSamples _ | EvWarning _
  | EvLoadStateDict _ | EvGetPotential _ | EvDataLoader _ _ _ _ => true
  | _ => false
  end.

(** What the body of the block does when the sampler holds [sinks]. *)
Definition body_event_for (sinks : list sink) (ev : event) : bool :=
  match ev with
  | EvWrite s _ => existsb (sink_eqb s) sinks
  | _ => is_body_event ev
  end.

(** What lines 173-205 do: everything of the body but running the sampler. *)
Definition is_build_event (ev : event) : bool :=
  match ev with
  | EvGetPotential _ | EvHMCKernel _ _ _ _ | EvMCMC _ _ | EvDataLoader _ _ _ _
  | EvRunner _ _ => true
  | _ => false
  end.

(** An event that involves the sample sink. *)
Definition touches_sample_sink (ev : event) : bool :=
  match ev with
  | EvOpen SampleSink | EvClose SampleSink | EvWrite SampleSink _ => true
  | EvRunner _ args =>
      match ra_model_saver args with Some _ => true | None => false end
  | _ => false
  end.

Module Cases.

(** A checkpoint of the same architecture with only the bias saved. *)
Definition bias_checkpoint : dict := [("b", Samples.bias_3')].

Definition resumed_store : dict :=
  [("w", Samples.weight_2x3); ("b", Samples.bias_3')].


(** The defaults with another batch size and sample saving switched. *)
Definition with_batch (cfg : Config) (b : option Z) (save : bool) : Config :=
  {| inference := inference cfg; width := width cfg;
     n_samples := n_samples cfg; warmup := warmup cfg;
     init_method := init_method cfg; burnin := burnin cfg; skip := skip cfg;
     metrics_skip := metrics_skip cfg; cycles := cycles cfg;
     temperature := temperature cfg; momentum := momentum cfg;
     precond_update := precond_update cfg; lr := lr cfg; batch_size := b;
     load_samples := load_samples cfg; save_samples := save;
     reject_samples := reject_samples cfg;
     sampling_decay := sampling_decay cfg; progressbar := progressbar cfg |}.

End Cases.

(* ================================================================== *)
(** ** The trace monad *)
(* ================================================================== *)

Unset Implicit Arguments.

Section MonadFacts.
Context {A B : Type}.

Lemma bind_ret_l (a : A) (f : A -> M B) : bind (ret a) f = f a.
Proof. unfold bind, ret. destruct (f a); reflexivity. Qed.

(** How a sequence ended: in its first part, or in its second. *)
Lemma bind_inv (m : M A) (f : A -> M B) (tr : list event) (r : result B) :
  bind m f = (tr, r) ->
  (exists e, m = (tr, Raise e) /\ r = Raise e) \/
  (exists a t1 t2, m = (t1, Ret a) /\ f a = (t2, r) /\ tr = t1 ++ t2).
Proof.
  unfold bind. destruct m as [t1 [a | e]].
  - destruct (f a) as [t2 r'] eqn:Hf. intros H. inversion H; subst.
    right. exists a, t1, t2. auto.
  - intros H. inversion H; subst. left. exists e. auto.
Qed.

Lemma fst_bind_ret (m : M A) (f : A -> M B) (t1 : list event) (a : A) :
  m = (t1, Ret a) -> bind m f = (t1 ++ fst (f a), snd (f a)).
Proof. intros ->. unfold bind. destruct (f a); reflexivity. Qed.
End MonadFacts.

Section Sat.
Variables (P : event -> bool) (Q : exn -> bool).

Lemma sat_ret {A} (a : A) : sat P Q (ret a).
Proof. split; exact I || reflexivity. Qed.

Lemma sat_raise {A} (e : exn) : Q e = true -> sat P Q (@raise A e).
Proof. intros H. split; [reflexivity | exact H]. Qed.

Lemma sat_emit (ev : event) : P ev = true -> sat P Q (emit ev).
Proof. intros H. split; simpl; [rewrite H; reflexivity | exact I]. Qed.

Lemma sat_trace {A} (tr : list event) (a : A) :
  forallb P tr = true -> sat P Q (tr, Ret a).
Proof. intros H. split; [exact H | exact I]. Qed.

Lemma sat_bind {A B} (m : M A) (f : A -> M B) :
  sat P Q m -> (forall a, sat P Q (f a)) -> sat P Q (bind m f).
Proof.
  intros [Hm1 Hm2] Hf. unfold bind. destruct m as [t1 [a | e]]; simpl in *.
  - specialize (Hf a). unfold sat in Hf. destruct (f a) as [t2 r].
    destruct Hf as [Hf1 Hf2]. simpl in *.
    split; [simpl; rewrite forallb_app, Hm1, Hf1; reflexivity | exact Hf2].
  - split; assumption.
Qed.

Lemma sat_finally {A} (m : M A) (c : M unit) :
  sat P Q m -> sat P Q c -> sat P Q (finally m c).
Proof.
  intros [Hm1 Hm2] [Hc1 Hc2]. unfold finally.
  destruct m as [t1 r], c as [t2 [[] | e]]; simpl in *;
    (split; [simpl; rewrite forallb_app, Hm1, Hc1; reflexivity | assumption]).
Qed.

Lemma sat_with {R A} (enter : M R) (exit_ : R -> M unit) (body : R -> M A) :
  sat P Q enter -> (forall r, sat P Q (exit_ r)) ->
  (forall r, sat P Q (body r)) -> sat P Q (py_with enter exit_ body).
Proof.
  intros He Hx Hb. unfold py_with. apply sat_bind; [exact He |].
  intros r. apply sat_finally; auto.
Qed.

Lemma sat_assert (b : bool) (a : assertion) :
  Q (AssertionError a) = true -> sat P Q (py_assert b a).
Proof. intros H. destruct b; [apply sat_ret | apply sat_raise, H]. Qed.
End Sat.

(** Weakening: a computation that stays within [P] and [Q] stays within
    anything larger. *)
Lemma sat_mono {A} (P P' : event -> bool) (Q Q' : exn -> bool) (m : M A) :
  sat P Q m ->
  (forall ev, P ev = true -> P' ev = true) ->
  (forall e, Q e = true -> Q' e = true) ->
  sat P' Q' m.
Proof.
  intros [H1 H2] HP HQ. split.
  - rewrite forallb_forall in *. auto.
  - destruct (snd m); auto.
Qed.

Lemma never_app (p : event -> bool) (t1 t2 : list event) :
  never p (t1 ++ t2) = never p t1 && never p t2.
Proof. apply forallb_app. Qed.

Lemma count_app (p : event -> bool) (t1 t2 : list event) :
  count p (t1 ++ t2) = (count p t1 + count p t2)%nat.
Proof. unfold count. rewrite filter_app, length_app. reflexivity. Qed.

Lemma never_count (p : event -> bool) (tr : list event) :
  never p tr = true -> count p tr = 0%nat.
Proof.
  unfold never, count. induction tr as [| ev tr IH]; simpl; [reflexivity |].
  destruct (p ev); simpl; [discriminate | exact IH].
Qed.

Create HintDb sat.
#[local] Hint Resolve sat_ret sat_raise sat_emit sat_bind sat_finally sat_with
  sat_assert sat_trace : sat.

(* ================================================================== *)
(** ** Dictionaries *)
(* ================================================================== *)

Lemma size_eqb_refl (sz : list Z) : size_eqb sz sz = true.
Proof.
  induction sz as [| a sz IH]; simpl; [reflexivity |].
  rewrite Z.eqb_refl. exact IH.
Qed.

Lemma existsb_eqb_In (k : key) (l : list key) :
  existsb (String.eqb k) l = true <-> In k l.
Proof.
  rewrite existsb_exists. split.
  - intros [x [Hin Heq]]. apply String.eqb_eq in Heq. subst. exact Hin.
  - intros Hin. exists k. split; [exact Hin | apply String.eqb_refl].
Qed.

Lemma uniq_NoDup (l : list key) : uniq l = true <-> NoDup l.
Proof.
  induction l as [| k l IH]; simpl.
  - split; [constructor | reflexivity].
  - rewrite andb_true_iff, negb_true_iff, IH. split.
    + intros [Hk Hl]. constructor; [| exact Hl].
      intros Hin. apply existsb_eqb_In in Hin. congruence.
    + intros H. inversion H as [| ? ? Hk Hl]; subst. split; [| exact Hl].
      destruct (existsb (String.eqb k) l) eqn:E; [| reflexivity].
      apply existsb_eqb_In in E. contradiction.
Qed.

Lemma dict_contains_In (k : key) (d : dict) :
  dict_contains k d = true <-> In k (dict_keys d).
Proof.
  unfold dict_contains. induction d as [| [k' v] d IH]; simpl.
  - split; [discriminate | contradiction].
  - destruct (String.eqb k k') eqn:E.
    + apply String.eqb_eq in E. subst. split; auto.
    + apply String.eqb_neq in E. rewrite IH. split; [auto |].
      intros [H | H]; [congruence | exact H].
Qed.

Lemma dict_get_None (k : key) (d : dict) :
  dict_get k d = None <-> ~ In k (dict_keys d).
Proof.
  rewrite <- dict_contains_In. unfold dict_contains.
  destruct (dict_get k d); split; congruence || discriminate.
Qed.

Lemma dict_get_app_r (k : key) (d1 d2 : dict) :
  ~ In k (dict_keys d1) -> dict_get k (d1 ++ d2) = dict_get k d2.
Proof.
  induction d1 as [| [k' v] d1 IH]; simpl; intros H; [reflexivity |].
  destruct (String.eqb k k') eqn:E.
  - apply String.eqb_eq in E. subst. exfalso. auto.
  - apply IH. auto.
Qed.

Lemma dict_setitem_app_r (k : key) (v : tensor) (d1 d2 : dict) :
  ~ In k (dict_keys d1) ->
  dict_setitem k v (d1 ++ d2) = d1 ++ dict_setitem k v d2.
Proof.
  induction d1 as [| [k' v'] d1 IH]; simpl; intros H; [reflexivity |].
  destruct (String.eqb k k') eqn:E.
  - apply String.eqb_eq in E. subst. exfalso. auto.
  - rewrite IH by auto. reflexivity.
Qed.

Lemma dict_get_setitem_same (k : key) (v : tensor) (d : dict) :
  dict_get k (dict_setitem k v d) = Some v.
Proof.
  induction d as [| [k' v'] d IH]; simpl.
  - rewrite String.eqb_refl. reflexivity.
  - destruct (String.eqb k k') eqn:E; simpl; rewrite E; [reflexivity | exact IH].
Qed.

Lemma dict_get_setitem_other (k k' : key) (v : tensor) (d : dict) :
  k <> k' -> dict_get k' (dict_setitem k v d) = dict_get k' d.
Proof.
  intros Hne. induction d as [| [k0 v0] d IH]; simpl.
  - apply not_eq_sym, String.eqb_neq in Hne. rewrite Hne. reflexivity.
  - destruct (String.eqb k k0) eqn:E; simpl.
    + apply String.eqb_eq in E. subst k0.
      apply not_eq_sym, String.eqb_neq in Hne. rewrite Hne. reflexivity.
    + rewrite IH. reflexivity.
Qed.

(** Assigning to a key the dictionary has changes neither the keys nor
    their order. *)
Lemma dict_keys_setitem_present (k : key) (v : tensor) (d : dict) :
  In k (dict_keys d) -> dict_keys (dict_setitem k v d) = dict_keys d.
Proof.
  induction d as [| [k' v'] d IH]; simpl; intros H; [contradiction |].
  destruct (String.eqb k k') eqn:E; simpl; [reflexivity |].
  apply String.eqb_neq in E. f_equal. apply IH.
  destruct H as [H | H]; [congruence | exact H].
Qed.

Lemma dict_keys_setitem_absent (k : key) (v : tensor) (d : dict) :
  ~ In k (dict_keys d) -> dict_keys (dict_setitem k v d) = dict_keys d ++ [k].
Proof.
  induction d as [| [k' v'] d IH]; simpl; intros H; [reflexivity |].
  destruct (String.eqb k k') eqn:E; simpl.
  - apply String.eqb_eq in E. subst. exfalso. auto.
  - f_equal. apply IH. auto.
Qed.

Lemma length_setitem_present (k : key) (v : tensor) (d : dict) :
  In k (dict_keys d) -> List.length (dict_setitem k v d) = List.length d.
Proof.
  intros H. apply (dict_keys_setitem_present k v) in H.
  apply (f_equal (@List.length key)) in H. unfold dict_keys in H.
  rewrite !length_map in H. exact H.
Qed.

(** Deleting a key the dictionary has makes it one entry shorter. *)
Lemma length_delitem (k : key) (d : dict) :
  In k (dict_keys d) -> S (List.length (dict_delitem k d)) = List.length d.
Proof.
  induction d as [| [k' v'] d IH]; simpl; intros H; [contradiction |].
  destruct (String.eqb k k') eqn:E; simpl; [reflexivity |].
  apply String.eqb_neq in E. f_equal. apply IH.
  destruct H as [H | H]; [congruence | exact H].
Qed.

Lemma dict_setitem_same_value (k : key) (v : tensor) (d : dict) :
  dict_get k d = Some v -> dict_setitem k v d = d.
Proof.
  induction d as [| [k' v'] d IH]; simpl; [discriminate |].
  destruct (String.eqb k k') eqn:E.
  - intros H. inversion H. reflexivity.
  - intros H. rewrite IH by exact H. reflexivity.
Qed.

Lemma wf_dict_setitem (k : key) (v : tensor) (d : dict) :
  wf_dict d = true -> wf_dict (dict_setitem k v d) = true.
Proof.
  unfold wf_dict. intros H.
  destruct (in_dec string_dec k (dict_keys d)) as [Hin | Hout].
  - rewrite dict_keys_setitem_present by exact Hin. exact H.
  - rewrite dict_keys_setitem_absent by exact Hout.
    apply uniq_NoDup. apply uniq_NoDup in H.
    apply NoDup_app; [exact H | repeat constructor; simpl; tauto |].
    intros x Hx [Hk | []]. subst. contradiction.
Qed.

Lemma wf_dict_update (d other : dict) :
  wf_dict d = true -> wf_dict (dict_update d other) = true.
Proof.
  unfold dict_update. revert d.
  induction other as [| [k v] other IH]; simpl; intros d H; [exact H |].
  apply IH, wf_dict_setitem, H.
Qed.

(** In a dictionary without repeated keys every entry is the one its key
    looks up. *)
Lemma dict_get_In (k : key) (v : tensor) (d : dict) :
  wf_dict d = true -> In (k, v) d -> dict_get k d = Some v.
Proof.
  unfold wf_dict. induction d as [| [k' v'] d IH]; simpl; [contradiction |].
  rewrite andb_true_iff, negb_true_iff. intros [Hk Hd] [Heq | Hin].
  - inversion Heq; subst. rewrite String.eqb_refl. reflexivity.
  - destruct (String.eqb k k') eqn:E; [| auto].
    apply String.eqb_eq in E. subst k'.
    assert (In k (dict_keys d)) by (apply (in_map fst) in Hin; exact Hin).
    apply existsb_eqb_In in H. congruence.
Qed.

(** [d.update(other)]: the entries of [other] win, the rest is [d]'s. *)
Lemma dict_get_update (k : key) (d other : dict) :
  wf_dict other = true ->
  dict_get k (dict_update d other) =
  match dict_get k other with
  | Some v => Some v
  | None => dict_get k d
  end.
Proof.
  unfold dict_update, wf_dict. revert d.
  induction other as [| [k' v'] other IH]; simpl; intros d; [reflexivity |].
  rewrite andb_true_iff, negb_true_iff. intros [Hk Ho].
  rewrite IH by exact Ho. destruct (String.eqb k k') eqn:E.
  - apply String.eqb_eq in E. subst k'.
    assert (Hnone : dict_get k other = None).
    { apply dict_get_None. intros Hin. apply existsb_eqb_In in Hin. congruence. }
    rewrite Hnone. apply dict_get_setitem_same.
  - apply String.eqb_neq in E.
    destruct (dict_get k other); [reflexivity |].
    apply dict_get_setitem_other. congruence.
Qed.

(** Updating a dictionary with entries it already has changes nothing. *)
Lemma dict_update_same (d other : dict) :
  (forall k v, In (k, v) other -> dict_get k d = Some v) ->
  dict_update d other = d.
Proof.
  unfold dict_update.
  induction other as [| [k v] other IH]; simpl; intros H; [reflexivity |].
  rewrite dict_setitem_same_value by (apply H; auto). apply IH.
  intros k' v' Hin. apply H. auto.
Qed.

(* ================================================================== *)
(** ** The reconciliation loop *)
(* ================================================================== *)

Lemma bind_emit {A} (ev : event) (m : M A) :
  (emit ev ;; m) = (ev :: fst m, snd m).
Proof. destruct m; reflexivity. Qed.

Lemma reconcile_loop_eq (n : nat) (pending : list key) (model_sd sd : dict) :
  reconcile_loop n pending model_sd sd =
  if negb (Nat.eqb (List.length sd) n) then raise dict_changed_size
  else
    match pending with
    | [] => ret sd
    | k :: rest =>
        if negb (dict_contains k model_sd) then
          emit (EvWarning (KeyNotInModel k)) ;;
          reconcile_loop n rest model_sd (dict_delitem k sd)
        else
          m <- getitem k model_sd ;;
          l <- getitem k sd ;;
          if negb (size_eqb (size m) (size l)) then
            emit (EvWarning (SizeMismatch k (size m) (size l))) ;;
            reconcile_loop n rest model_sd (dict_setitem k m sd)
          else
            reconcile_loop n rest model_sd sd
    end.
Proof. destruct pending; reflexivity. Qed.

(** Once the store has another number of entries than at the start of the
    loop, asking for the next key raises. *)
Lemma reconcile_loop_size_changed (n : nat) (pending : list key)
      (model_sd sd : dict) :
  List.length sd <> n ->
  reconcile_loop n pending model_sd sd = raise dict_changed_size.
Proof.
  intros H. rewrite reconcile_loop_eq.
  apply Nat.eqb_neq in H. rewrite H. reflexivity.
Qed.

Lemma getitem_present (k : key) (d : dict) :
  In k (dict_keys d) -> exists v, dict_get k d = Some v /\ getitem k d = ret v.
Proof.
  intros H. apply dict_contains_In in H. unfold dict_contains, getitem in *.
  destruct (dict_get k d) as [v |]; [| discriminate]. exists v. auto.
Qed.

(** The loop only ever logs warnings, and only fails on the dictionary. *)
Lemma reconcile_loop_sat (n : nat) (pending : list key) (model_sd sd : dict) :
  sat is_warning is_dict_error (reconcile_loop n pending model_sd sd).
Proof.
  revert sd. induction pending as [| k rest IH]; intros sd;
    rewrite reconcile_loop_eq;
    destruct (negb (Nat.eqb (List.length sd) n));
    try (apply sat_raise; reflexivity); try apply sat_ret.
  destruct (negb (dict_contains k model_sd)).
  - apply sat_bind; [apply sat_emit; reflexivity | intros _; apply IH].
  - unfold getitem.
    destruct (dict_get k model_sd) as [m |]; [| apply sat_raise; reflexivity].
    rewrite bind_ret_l.
    destruct (dict_get k sd) as [l |]; [| apply sat_raise; reflexivity].
    rewrite bind_ret_l.
    destruct (negb (size_eqb (size m) (size l))).
    + apply sat_bind; [apply sat_emit; reflexivity | intros _; apply IH].
    + apply IH.
Qed.

(** A key of the loaded store that the model lacks ends the loop with the
    iterator's [RuntimeError]: line 150 deletes the entry, and the loop then
    asks for the next key. *)
Lemma reconcile_loop_unknown_key (n : nat) (pending : list key)
      (model_sd sd : dict) :
  List.length sd = n ->
  incl pending (dict_keys sd) ->
  (exists k, In k pending /\ dict_contains k model_sd = false) ->
  snd (reconcile_loop n pending model_sd sd) = Raise dict_changed_size.
Proof.
  revert sd. induction pending as [| k rest IH]; intros sd Hlen Hincl [k0 [Hin Hk0]].
  - destruct Hin.
  - rewrite reconcile_loop_eq.
    assert (Hk : In k (dict_keys sd)) by (apply Hincl; left; reflexivity).
    assert (Hrest : incl rest (dict_keys sd))
      by (intros x Hx; apply Hincl; right; exact Hx).
    rewrite Hlen, Nat.eqb_refl. simpl negb. cbv iota.
    destruct (dict_contains k model_sd) eqn:Hc; simpl negb; cbv iota.
    + assert (Hin' : In k0 rest).
      { destruct Hin as [-> | H]; [congruence | exact H]. }
      apply dict_contains_In in Hc.
      destruct (getitem_present k model_sd Hc) as [m [_ ->]].
      destruct (getitem_present k sd Hk) as [l [_ ->]].
      rewrite !bind_ret_l.
      destruct (negb (size_eqb (size m) (size l))).
      * rewrite bind_emit. simpl snd. apply IH.
        -- rewrite length_setitem_present by exact Hk. exact Hlen.
        -- rewrite dict_keys_setitem_present by exact Hk. exact Hrest.
        -- exists k0. auto.
      * apply IH; [exact Hlen | exact Hrest | exists k0; auto].
    + rewrite bind_emit. simpl snd.
      rewrite reconcile_loop_size_changed; [reflexivity |].
      apply length_delitem in Hk. lia.
Qed.

Lemma mismatch_warnings_cons (model_sd : dict) (kv : key * tensor) (sd : dict) :
  mismatch_warnings model_sd (kv :: sd) =
  mismatch_warnings model_sd [kv] ++ mismatch_warnings model_sd sd.
Proof. unfold mismatch_warnings. simpl. rewrite app_nil_r. reflexivity. Qed.

(** When the model has every key of the loaded store, the loop runs to its
    end and leaves [resolve] of every entry, logging the size mismatches. *)
Lemma reconcile_loop_known (model_sd : dict) (n : nat) :
  forall (suffix prefix : dict),
    List.length (prefix ++ suffix) = n ->
    (forall k, In k (dict_keys suffix) -> ~ In k (dict_keys prefix)) ->
    wf_dict suffix = true ->
    all_known model_sd suffix = true ->
    reconcile_loop n (dict_keys suffix) model_sd (prefix ++ suffix) =
    (mismatch_warnings model_sd suffix,
     Ret (prefix ++ map (resolve model_sd) suffix)).
Proof.
  induction suffix as [| [k l] rest IH]; intros prefix Hlen Hdisj Hwf Hknown.
  - rewrite reconcile_loop_eq, Hlen, Nat.eqb_refl. reflexivity.
  - rewrite reconcile_loop_eq, Hlen, Nat.eqb_refl. simpl dict_keys.
    unfold wf_dict, all_known in Hwf, Hknown. simpl in Hwf, Hknown.
    apply andb_true_iff in Hwf. destruct Hwf as [Hk Hwf].
    apply andb_true_iff in Hknown. destruct Hknown as [Hc Hknown].
    apply negb_true_iff in Hk. simpl negb. cbv iota. rewrite Hc. simpl negb. cbv iota.
    assert (Hkp : ~ In k (dict_keys prefix)) by (apply Hdisj; left; reflexivity).
    assert (Hkr : ~ In k (dict_keys rest)).
    { intros H. apply existsb_eqb_In in H. congruence. }
    pose proof Hc as Hc'. apply dict_contains_In in Hc'.
    destruct (getitem_present k model_sd Hc') as [m [Hm ->]].
    rewrite bind_ret_l. unfold getitem at 1.
    rewrite dict_get_app_r by exact Hkp. simpl dict_get.
    rewrite String.eqb_refl, bind_ret_l.
    rewrite mismatch_warnings_cons. unfold mismatch_warnings at 1.
    simpl flat_map. simpl map. unfold resolve at 1. simpl fst. simpl snd.
    rewrite Hm, app_nil_r.
    assert (Hstep : forall v : tensor,
      reconcile_loop n (map fst rest) model_sd (prefix ++ (k, v) :: rest) =
      (mismatch_warnings model_sd rest,
       Ret (prefix ++ (k, v) :: map (resolve model_sd) rest))).
    { intros v.
      replace (prefix ++ (k, v) :: rest) with ((prefix ++ [(k, v)]) ++ rest)
        by (rewrite <- app_assoc; reflexivity).
      replace (prefix ++ (k, v) :: map (resolve model_sd) rest)
        with ((prefix ++ [(k, v)]) ++ map (resolve model_sd) rest)
        by (rewrite <- app_assoc; reflexivity).
      apply IH; [| | exact Hwf | exact Hknown].
      - rewrite <- Hlen, !length_app. simpl. lia.
      - intros x Hx. unfold dict_keys. rewrite map_app, in_app_iff. simpl.
        intros [H | [H | []]].
        + apply (Hdisj x); [right; exact Hx | exact H].
        + subst x. contradiction. }
    destruct (size_eqb (size m) (size l)); simpl negb; cbv iota.
    + apply Hstep.
    + rewrite bind_emit, dict_setitem_app_r by exact Hkp. simpl dict_setitem.
      rewrite String.eqb_refl, Hstep. reflexivity.
Qed.

Lemma dict_keys_resolve (model_sd sd : dict) :
  dict_keys (map (resolve model_sd) sd) = dict_keys sd.
Proof.
  unfold dict_keys. rewrite map_map. apply map_ext. intros [k l].
  unfold resolve. simpl.
  destruct (dict_get k model_sd) as [m |]; [| reflexivity].
  destruct (size_eqb (size m) (size l)); reflexivity.
Qed.

Lemma dict_get_resolve (model_sd sd : dict) (k : key) :
  dict_get k (map (resolve model_sd) sd) =
  match dict_get k sd with
  | Some l => Some (snd (resolve model_sd (k, l)))
  | None => None
  end.
Proof.
  induction sd as [| [k' l'] sd IH]; simpl; [reflexivity |].
  assert (Hfst : fst (resolve model_sd (k', l')) = k').
  { unfold resolve. simpl. destruct (dict_get k' model_sd) as [m |]; [| reflexivity].
    destruct (size_eqb (size m) (size l')); reflexivity. }
  destruct (resolve model_sd (k', l')) as [k2 l2] eqn:Hr. simpl in Hfst. subst k2.
  destruct (String.eqb k k') eqn:E; [| exact IH].
  apply String.eqb_eq in E. subst k'. rewrite Hr. reflexivity.
Qed.

(** What [reconcile] does when the model has every key of the loaded
    store. *)
Lemma reconcile_known (model_sd state_dict : dict) :
  wf_dict state_dict = true ->
  all_known model_sd state_dict = true ->
  let state_dict' := map (resolve model_sd) state_dict in
  let merged := dict_update model_sd state_dict' in
  reconcile model_sd state_dict =
  (mismatch_warnings model_sd state_dict ++
   [EvWarning (KeysNotFound (missing_keys model_sd state_dict'));
    EvLoadStateDict merged],
   Ret merged).
Proof.
  intros Hwf Hknown. unfold reconcile.
  pose proof (@reconcile_loop_known model_sd (List.length state_dict)
                state_dict [] eq_refl (fun _ _ H => H) Hwf Hknown) as Hloop.
  simpl app in Hloop. rewrite Hloop. reflexivity.
Qed.

Lemma reconcile_ret_inv (model_sd state_dict merged : dict) (tr : list event) :
  reconcile model_sd state_dict = (tr, Ret merged) ->
  exists state_dict', merged = dict_update model_sd state_dict'.
Proof.
  unfold reconcile. intros H. apply bind_inv in H.
  destruct H as [[e [_ He]] | [sd' [t1 [t2 [_ [H _]]]]]]; [discriminate |].
  exists sd'. cbv [bind emit ret] in H. inversion H. reflexivity.
Qed.

Lemma resolve_self (sd : dict) :
  wf_dict sd = true ->
  forall sub, incl sub sd ->
    map (resolve sd) sub = sub /\ mismatch_warnings sd sub = [].
Proof.
  intros Hwf. induction sub as [| [k v] sub IH]; intros Hincl.
  - split; reflexivity.
  - destruct IH as [IH1 IH2]; [intros x Hx; apply Hincl; right; exact Hx |].
    assert (Hget : dict_get k sd = Some v).
    { apply dict_get_In; [exact Hwf | apply Hincl; left; reflexivity]. }
    rewrite mismatch_warnings_cons, IH2. unfold mismatch_warnings.
    simpl. unfold resolve at 1. simpl. rewrite Hget, size_eqb_refl, IH1.
    split; reflexivity.
Qed.

Lemma all_known_self (sd : dict) : all_known sd sd = true.
Proof.
  unfold all_known. apply forallb_forall. intros k Hk.
  apply dict_contains_In, Hk.
Qed.

Lemma missing_keys_self (sd : dict) : missing_keys sd sd = [].
Proof.
  unfold missing_keys.
  assert (H : forall l, incl l (dict_keys sd) ->
             filter (fun k => negb (dict_contains k sd)) l = []).
  { induction l as [| k l IH]; intros Hincl; [reflexivity |]. simpl.
    assert (Hc : dict_contains k sd = true)
      by (apply dict_contains_In, Hincl; left; reflexivity).
    rewrite Hc. simpl. apply IH. intros x Hx. apply Hincl. right. exact Hx. }
  apply H, incl_refl.
Qed.

(** Reconciling a store with itself touches nothing. *)
Lemma reconcile_self (sd : dict) :
  wf_dict sd = true ->
  reconcile sd sd = ([EvWarning (KeysNotFound []); EvLoadStateDict sd], Ret sd).
Proof.
  intros Hwf.
  rewrite (reconcile_known sd sd Hwf (all_known_self sd)).
  destruct (resolve_self sd Hwf sd (incl_refl sd)) as [Hmap Hwarn].
  rewrite Hmap, Hwarn, missing_keys_self.
  rewrite (dict_update_same sd sd); [reflexivity |].
  intros k v Hin. apply dict_get_In; assumption.
Qed.

(* ================================================================== *)
(** ** Checkpoint reconciliation: the claims *)
(* ================================================================== *)

(** C3 (the code departs from it).  The specification wants a key of the
    loaded store that the model lacks to be dropped with a warning and the
    merge to go on.  The code deletes the entry from the dictionary it is
    iterating over: whenever the loaded store has such a key, the loop ends
    with [RuntimeError] when it asks for the next key, and no store is
    installed into the model. *)
Theorem reconcile_unknown_key_raises (model_sd state_dict : dict) (k : key) :
  In k (dict_keys state_dict) ->
  dict_contains k model_sd = false ->
  snd (reconcile model_sd state_dict) = Raise dict_changed_size /\
  never is_load_state_dict (fst (reconcile model_sd state_dict)) = true.
Proof.
  intros Hin Hk. unfold reconcile.
  pose proof (@reconcile_loop_unknown_key (List.length state_dict)
                (dict_keys state_dict) model_sd state_dict eq_refl
                (incl_refl _) (ex_intro _ k (conj Hin Hk))) as Hraise.
  pose proof (reconcile_loop_sat (List.length state_dict)
                (dict_keys state_dict) model_sd state_dict) as [Hev _].
  destruct (reconcile_loop _ _ _ _) as [t r]. simpl in Hraise, Hev. subst r.
  simpl. split; [reflexivity |].
  unfold never. rewrite forallb_forall in *. intros ev Hin'.
  specialize (Hev ev Hin'). destruct ev; simpl in *; congruence.
Qed.

Lemma reconcile_unknown_key_raises_witness :
  In "extra" (dict_keys Samples.foreign_checkpoint) /\
  dict_contains "extra" Samples.model_store = false /\
  reconcile Samples.model_store Samples.foreign_checkpoint
  = ([EvWarning (KeyNotInModel "extra")], Raise dict_changed_size) /\
  snd (reconcile Samples.model_store Samples.foreign_checkpoint)
  = Raise dict_changed_size /\
  never is_load_state_dict
    (fst (reconcile Samples.model_store Samples.foreign_checkpoint)) = true.
Proof.
  split; [left; reflexivity |]. split; [reflexivity |]. split; [reflexivity |].
  apply (@reconcile_unknown_key_raises Samples.model_store
           Samples.foreign_checkpoint "extra");
    [left; reflexivity | reflexivity].
Defined.

(** C4 (the code departs from it).  A key of both stores with another size
    in the checkpoint must end up with the model's tensor and a warning
    naming both sizes.  When the checkpoint also holds, earlier in its
    order, a key the model lacks, the loop has already raised: the warning
    for the mismatched key is never logged and nothing is installed. *)
Theorem reconcile_size_mismatch_after_unknown_key :
  dict_get "w" Samples.model_store = Some Samples.weight_2x3 /\
  dict_get "w" Samples.mixed_checkpoint = Some Samples.weight_4x3 /\
  size_eqb (size Samples.weight_2x3) (size Samples.weight_4x3) = false /\
  reconcile Samples.model_store Samples.mixed_checkpoint
  = ([EvWarning (KeyNotInModel "extra")], Raise dict_changed_size).
Proof. repeat split. Qed.

(** The rule of lines 151-153 itself: when the model has every key of the
    loaded store, a key with mismatched sizes keeps the model's tensor in
    the installed store, and the warning with both sizes is logged. *)
Lemma reconcile_size_mismatch_known (model_sd state_dict : dict) (k : key)
      (m l : tensor) :
  wf_dict state_dict = true ->
  all_known model_sd state_dict = true ->
  dict_get k model_sd = Some m ->
  dict_get k state_dict = Some l ->
  size_eqb (size m) (size l) = false ->
  exists tr merged,
    reconcile model_sd state_dict = (tr, Ret merged) /\
    dict_get k merged = Some m /\
    existsb (is_size_mismatch_of k (size m) (size l)) tr = true.
Proof.
  intros Hwf Hknown Hm Hl Hsz.
  eexists. eexists. split; [apply reconcile_known; assumption |]. split.
  - rewrite dict_get_update
      by (unfold wf_dict; rewrite dict_keys_resolve; exact Hwf).
    rewrite dict_get_resolve, Hl. unfold resolve. simpl. rewrite Hm, Hsz.
    reflexivity.
  - rewrite existsb_app. apply orb_true_iff. left.
    clear Hwf Hknown. induction state_dict as [| [k' l'] sd IH];
      simpl in Hl; [discriminate |].
    rewrite mismatch_warnings_cons, existsb_app. apply orb_true_iff.
    destruct (String.eqb k k') eqn:E.
    + left. apply String.eqb_eq in E. subst k'. inversion Hl; subst l'.
      unfold mismatch_warnings. simpl. rewrite Hm, Hsz. simpl.
      rewrite String.eqb_refl, !size_eqb_refl. reflexivity.
    + right. apply IH, Hl.
Qed.

(** A reconciliation that installs a store met no key the model lacks. *)
Lemma reconcile_ret_all_known (model_sd state_dict merged : dict)
      (tr : list event) :
  reconcile model_sd state_dict = (tr, Ret merged) ->
  all_known model_sd state_dict = true.
Proof.
  intros Hrec. unfold all_known.
  destruct (forallb (fun k => dict_contains k model_sd) (dict_keys state_dict))
    eqn:E; [reflexivity | exfalso].
  assert (Hex : exists k, In k (dict_keys state_dict) /\
                          dict_contains k model_sd = false).
  { clear Hrec. induction (dict_keys state_dict) as [| k l IH];
      simpl in E; [discriminate |].
    destruct (dict_contains k model_sd) eqn:Hk.
    - destruct (IH E) as [k' [Hin Hk']]. exists k'. split; [right |]; assumption.
    - exists k. split; [left; reflexivity | exact Hk]. }
  pose proof (@reconcile_loop_unknown_key (List.length state_dict)
                (dict_keys state_dict) model_sd state_dict eq_refl
                (incl_refl _) Hex) as Hraise.
  unfold reconcile in Hrec. apply bind_inv in Hrec.
  destruct Hrec as [[e [_ He]] | [sd' [t1 [t2 [Hloop _]]]]]; [discriminate |].
  rewrite Hloop in Hraise. discriminate.
Qed.

(** The same for every reconciliation that installs a store at all. *)
Lemma reconcile_size_mismatch_installed (model_sd state_dict merged : dict)
      (tr : list event) (k : key) (m l : tensor) :
  wf_dict state_dict = true ->
  reconcile model_sd state_dict = (tr, Ret merged) ->
  dict_get k model_sd = Some m ->
  dict_get k state_dict = Some l ->
  size_eqb (size m) (size l) = false ->
  dict_get k merged = Some m /\
  existsb (is_size_mismatch_of k (size m) (size l)) tr = true.
Proof.
  intros Hwf Hrec Hm Hl Hsz.
  pose proof (reconcile_ret_all_known _ _ _ _ Hrec) as Hknown.
  destruct (reconcile_size_mismatch_known model_sd state_dict k m l
              Hwf Hknown Hm Hl Hsz) as [tr' [merged' [Hrec' [Hget Hwarn]]]].
  rewrite Hrec in Hrec'. inversion Hrec'; subst. auto.
Qed.

(** C9.  Reconciling a merged store against itself installs the same
    store: no key is dropped, no value is replaced, and the list of missing
    keys is empty. *)
Theorem reconcile_idempotent (model_sd state_dict merged : dict)
        (tr : list event) :
  wf_dict model_sd = true ->
  reconcile model_sd state_dict = (tr, Ret merged) ->
  reconcile merged merged
  = ([EvWarning (KeysNotFound []); EvLoadStateDict merged], Ret merged).
Proof.
  intros Hwf Hrec. apply reconcile_ret_inv in Hrec.
  destruct Hrec as [sd' ->]. apply reconcile_self, wf_dict_update, Hwf.
Qed.

Lemma reconcile_idempotent_witness :
  wf_dict Samples.model_store = true /\
  reconcile Samples.model_store Samples.wider_checkpoint
  = ([EvWarning (SizeMismatch "w" [2; 3] [4; 3]);
      EvWarning (KeysNotFound []);
      EvLoadStateDict Samples.merged_store], Ret Samples.merged_store) /\
  reconcile Samples.merged_store Samples.merged_store
  = ([EvWarning (KeysNotFound []); EvLoadStateDict Samples.merged_store],
     Ret Samples.merged_store).
Proof.
  split; [reflexivity |]. split; [reflexivity |].
  apply (@reconcile_idempotent Samples.model_store Samples.wider_checkpoint
           Samples.merged_store
           [EvWarning (SizeMismatch "w" [2; 3] [4; 3]);
            EvWarning (KeysNotFound []);
            EvLoadStateDict Samples.merged_store]);
    reflexivity.
Defined.

(* ================================================================== *)
(** ** The phases of [main] *)
(* ================================================================== *)

Lemma validate_sat (cfg : Config) (resume : bool) :
  sat (fun _ => false) (is_prepare_exn resume) (validate cfg).
Proof. unfold validate. repeat (apply sat_bind; [| intros _]); auto with sat. Qed.

(** A configuration that passes lines 117-121. *)
Lemma validate_ret (cfg : Config) :
  snd (validate cfg) = Ret tt ->
  existsb (String.eqb (inference cfg)) valid_inference = true /\
  0 < width cfg /\ 0 < n_samples cfg /\ 0 < cycles cfg.
Proof.
  unfold validate.
  destruct (existsb (String.eqb (inference cfg)) valid_inference);
    [| discriminate].
  destruct (0 <? width cfg) eqn:Hw; [| discriminate].
  destruct (0 <? n_samples cfg) eqn:Hn; [| discriminate].
  destruct (0 <? cycles cfg) eqn:Hc; [| discriminate].
  intros _. apply Z.ltb_lt in Hw, Hn, Hc. auto.
Qed.

Lemma initialize_sat (init_method : string) :
  sat (is_prepare_event false) (is_prepare_exn false) (initialize init_method).
Proof.
  unfold initialize.
  repeat match goal with |- context [if ?b then _ else _] => destruct b end;
    auto with sat.
Qed.

Lemma reconcile_sat (model_sd state_dict : dict) :
  sat (is_prepare_event true) (is_prepare_exn true)
      (reconcile model_sd state_dict).
Proof.
  unfold reconcile. apply sat_bind.
  - eapply sat_mono; [apply reconcile_loop_sat | |].
    + intros []; simpl; congruence.
    + intros []; simpl; congruence.
  - intros sd'. repeat (apply sat_bind; [| intros _]); auto with sat.
Qed.

Lemma initialize_or_resume_sat (cfg : Config) (env : Env) :
  sat (is_prepare_event (resuming cfg)) (is_prepare_exn (resuming cfg))
      (initialize_or_resume cfg env).
Proof.
  unfold initialize_or_resume, resuming.
  destruct (load_samples cfg) as [path |]; [| apply initialize_sat].
  apply sat_bind.
  - unfold exp_load_samples. apply sat_bind; [auto with sat |].
    intros _. destruct (checkpoint env); auto with sat.
  - intros sd. apply sat_bind; [apply reconcile_sat | auto with sat].
Qed.

Lemma prepare_sat (cfg : Config) (env : Env) :
  sat (is_prepare_event (resuming cfg)) (is_prepare_exn (resuming cfg))
      (prepare cfg env).
Proof.
  unfold prepare. apply sat_bind.
  - eapply sat_mono; [apply (validate_sat cfg (resuming cfg)) | | auto].
    discriminate.
  - intros _. repeat (apply sat_bind; [auto with sat | intros _]).
    apply initialize_or_resume_sat.
Qed.

Lemma prepare_ret (cfg : Config) (env : Env) :
  snd (prepare cfg env) = Ret tt -> snd (validate cfg) = Ret tt.
Proof.
  unfold prepare. destruct (validate cfg) as [t [[] | e]]; simpl;
    [reflexivity | discriminate].
Qed.

Lemma write_events_sat (sinks : list sink) (ws : list (sink * Z)) :
  forallb is_write (write_events sinks ws) = true.
Proof.
  unfold write_events. apply forallb_forall. intros ev Hin.
  apply in_map_iff in Hin. destruct Hin as [w [<- _]]. reflexivity.
Qed.

Lemma sampler_run_sat (s : sampler) (pb : bool) (env : Env) :
  sat is_body_event is_block_exn (sampler_run s pb env).
Proof.
  unfold sampler_run. apply sat_bind; [auto with sat | intros _].
  apply sat_bind.
  - apply sat_trace. pose proof (write_events_sat (sampler_sinks s) (run_writes env)) as H.
    rewrite forallb_forall in *. intros ev Hin. specialize (H ev Hin).
    destruct ev; simpl in *; congruence.
  - intros _. destruct (run_failure env); auto with sat.
Qed.

Lemma schedule_sat (n s c w b : Z) :
  sat is_body_event is_block_exn (schedule n s c w b).
Proof.
  unfold schedule, py_mod, py_floordiv.
  destruct (c =? 0); [apply sat_raise; reflexivity |].
  rewrite !bind_ret_l. apply sat_bind; auto with sat.
Qed.

Lemma build_sampler_sat (cfg : Config) (env : Env) (ms : sink) (mo : option sink) :
  sat is_body_event is_block_exn (build_sampler cfg env ms mo).
Proof.
  unfold build_sampler. destruct (String.eqb (inference cfg) "HMC").
  - repeat (apply sat_bind; [auto with sat | intros _]). auto with sat.
  - apply sat_bind; [apply schedule_sat | intros se].
    repeat (apply sat_bind; [auto with sat | intros _]).
    apply sat_bind.
    + destruct (select_runner (inference cfg)); auto with sat.
    + intros cls. apply sat_bind; auto with sat.
Qed.

Lemma sampling_body_sat (cfg : Config) (env : Env) (ms : sink) (mo : option sink) :
  sat is_body_event is_block_exn (sampling_body cfg env ms mo).
Proof.
  unfold sampling_body. apply sat_bind; [apply build_sampler_sat | intros mb].
  apply sat_bind; [apply sampler_run_sat | auto with sat].
Qed.

(** The shape of the block once both sinks are open: the openings, the
    body up to its exit, then the closings; the body's value or exception
    is the block's. *)
Lemma sampling_block_entered (cfg : Config) (env : Env) :
  block_entered cfg env = true ->
  let body := sampling_body cfg env MetricsSink (model_saver_of cfg) in
  sampling_block cfg env = (opened cfg ++ fst body ++ closed cfg, snd body).
Proof.
  unfold block_entered, sampling_block, py_with, model_saver_enter,
    model_saver_of, opened, closed, sink_enter.
  intros H. apply andb_true_iff in H. destruct H as [-> H].
  destruct (save_samples cfg); simpl in H.
  - rewrite H. simpl.
    destruct (sampling_body cfg env MetricsSink (Some SampleSink)) as [t r].
    simpl. rewrite <- app_assoc. reflexivity.
  - simpl. destruct (sampling_body cfg env MetricsSink None) as [t r].
    simpl. rewrite app_nil_r. reflexivity.
Qed.

(** A sink that cannot be opened: the body is not run, and a sink that was
    opened before is closed again. *)
Lemma sampling_block_not_entered (cfg : Config) (env : Env) :
  block_entered cfg env = false ->
  sampling_block cfg env =
  ((if metrics_openable env then [EvOpen MetricsSink; EvClose MetricsSink]
    else []),
   Raise (ExternalError "cannot open sink")).
Proof.
  unfold block_entered, sampling_block, py_with, model_saver_enter, sink_enter.
  destruct (metrics_openable env); simpl; [| reflexivity].
  destruct (save_samples cfg); simpl; [| discriminate].
  intros ->. reflexivity.
Qed.

Lemma sampling_block_sat (cfg : Config) (env : Env) :
  sat is_block_event is_block_exn (sampling_block cfg env).
Proof.
  destruct (block_entered cfg env) eqn:E.
  - rewrite (sampling_block_entered cfg env E).
    pose proof (sampling_body_sat cfg env MetricsSink (model_saver_of cfg))
      as [Hev Hex].
    split; [| exact Hex]. cbv beta zeta. unfold fst at 1. rewrite !forallb_app.
    apply andb_true_iff. split; [| apply andb_true_iff; split].
    + unfold opened. destruct (save_samples cfg); reflexivity.
    + rewrite forallb_forall in *. intros ev Hin. unfold is_block_event.
      rewrite (Hev ev Hin). reflexivity.
    + unfold closed. destruct (save_samples cfg); reflexivity.
  - rewrite (sampling_block_not_entered cfg env E).
    split; [| reflexivity]. destruct (metrics_openable env); reflexivity.
Qed.

Lemma evaluate_sat (env : Env) (bs : option Z) :
  sat is_evaluate_event is_type_error (evaluate env bs).
Proof.
  unfold evaluate, py_min.
  repeat (apply sat_bind; [auto with sat | intros _]).
  destruct bs; [| apply sat_raise; reflexivity].
  rewrite bind_ret_l. apply sat_bind; auto with sat.
Qed.

(** How [main] ends: in lines 117-160, in the sampling block, or in the
    evaluation. *)
Lemma main_cases (cfg : Config) (env : Env) :
  (exists e, snd (prepare cfg env) = Raise e /\
             main cfg env = (fst (prepare cfg env), Raise e)) \/
  (snd (prepare cfg env) = Ret tt /\
   exists e, snd (sampling_block cfg env) = Raise e /\
             main cfg env =
             (fst (prepare cfg env) ++ fst (sampling_block cfg env), Raise e)) \/
  (snd (prepare cfg env) = Ret tt /\
   exists mb, snd (sampling_block cfg env) = Ret mb /\
              main cfg env =
              (fst (prepare cfg env) ++ fst (sampling_block cfg env) ++
               fst (evaluate env (snd mb)),
               snd (evaluate env (snd mb)))).
Proof.
  unfold main.
  destruct (prepare cfg env) as [t1 [[] | e]]; simpl.
  - right. destruct (sampling_block cfg env) as [t2 [mb | e]]; simpl.
    + right. split; [reflexivity |]. exists mb. split; [reflexivity |].
      destruct (evaluate env (snd mb)) as [t3 r]. reflexivity.
    + left. split; [reflexivity |]. exists e. auto.
  - left. exists e. auto.
Qed.

Lemma main_sat (cfg : Config) (env : Env) :
  sat (is_main_event cfg) (is_main_exn cfg) (main cfg env).
Proof.
  unfold main. apply sat_bind; [| intros _; apply sat_bind; [| intros mb]].
  - eapply sat_mono; [apply prepare_sat | |];
      unfold is_main_event, is_main_exn; intros x ->; reflexivity.
  - eapply sat_mono; [apply sampling_block_sat | |];
      unfold is_main_event, is_main_exn; intros x ->;
      rewrite ?orb_true_r; reflexivity.
  - eapply sat_mono; [apply evaluate_sat | |];
      unfold is_main_event, is_main_exn; intros x ->;
      rewrite ?orb_true_r; reflexivity.
Qed.

(** A property no event of any phase has holds of no event of a run. *)
Lemma main_never (cfg : Config) (env : Env) (p : event -> bool) :
  (forall ev, is_main_event cfg ev = true -> p ev = false) ->
  never p (fst (main cfg env)) = true.
Proof.
  intros H. pose proof (main_sat cfg env) as [Hev _].
  unfold never. rewrite forallb_forall in *. intros ev Hin.
  rewrite (H ev (Hev ev Hin)). reflexivity.
Qed.

Lemma prepare_never (cfg : Config) (env : Env) (p : event -> bool) :
  (forall ev, is_prepare_event (resuming cfg) ev = true -> p ev = false) ->
  never p (fst (prepare cfg env)) = true.
Proof.
  intros H. pose proof (prepare_sat cfg env) as [Hev _].
  unfold never. rewrite forallb_forall in *. intros ev Hin.
  rewrite (H ev (Hev ev Hin)). reflexivity.
Qed.

Lemma prepare_never_sampling (cfg : Config) (env : Env) :
  never is_sampling (fst (prepare cfg env)) = true /\
  never is_loader (fst (prepare cfg env)) = true /\
  never is_open (fst (prepare cfg env)) = true.
Proof.
  repeat split; apply prepare_never; intros []; simpl; congruence.
Qed.

(* ================================================================== *)
(** ** The schedule: the claims *)
(* ================================================================== *)

(** C1.  With a positive sample count, a skip of at least one and a positive
    cycle count that divides [requested_samples * skip], the schedule is
    computed, [sample_epochs * cycles] is [requested_samples * skip] exactly,
    and [epochs_per_cycle] is [warmup + burnin + sample_epochs]. *)
Theorem schedule_exact (n_samples skip cycles warmup burnin : Z) :
  0 < n_samples -> 1 <= skip -> 0 < cycles ->
  (n_samples * skip) mod cycles = 0 ->
  exists sample_epochs epochs_per_cycle,
    schedule n_samples skip cycles warmup burnin
    = ([], Ret (sample_epochs, epochs_per_cycle)) /\
    sample_epochs = n_samples * skip / cycles /\
    sample_epochs * cycles = n_samples * skip /\
    epochs_per_cycle = warmup + burnin + sample_epochs.
Proof.
  intros Hn Hs Hc Hdiv.
  exists (n_samples * skip / cycles), (warmup + burnin + n_samples * skip / cycles).
  repeat split.
  - unfold schedule, py_mod, py_floordiv.
    assert (Hc0 : (cycles =? 0) = false) by (apply Z.eqb_neq; lia).
    rewrite Hc0, Hdiv. reflexivity.
  - rewrite Z.mul_comm. symmetry. apply Z.div_exact; [lia | exact Hdiv].
Qed.

Lemma schedule_exact_witness :
  0 < 100 /\ 1 <= 5 /\ 0 < 5 /\ (100 * 5) mod 5 = 0 /\
  exists sample_epochs epochs_per_cycle,
    schedule 100 5 5 2000 2000 = ([], Ret (sample_epochs, epochs_per_cycle)) /\
    sample_epochs = 100 * 5 / 5 /\
    sample_epochs * 5 = 100 * 5 /\
    epochs_per_cycle = 2000 + 2000 + sample_epochs.
Proof.
  split; [lia |]. split; [lia |]. split; [lia |]. split; [reflexivity |].
  apply (schedule_exact 100 5 5 2000 2000); [lia | lia | lia | reflexivity].
Defined.

Lemma schedule_violation (n s c w b : Z) :
  c <> 0 -> (n * s) mod c <> 0 ->
  schedule n s c w b = ([], Raise (AssertionError A_divisible)).
Proof.
  intros Hc Hdiv. unfold schedule, py_mod.
  apply Z.eqb_neq in Hc, Hdiv. rewrite Hc, bind_ret_l, Hdiv. reflexivity.
Qed.

Lemma sampling_body_violation (cfg : Config) (env : Env) (ms : sink)
      (mo : option sink) :
  inference cfg <> "HMC" -> cycles cfg <> 0 ->
  (n_samples cfg * skip cfg) mod cycles cfg <> 0 ->
  sampling_body cfg env ms mo = ([], Raise (AssertionError A_divisible)).
Proof.
  intros Hmode Hc Hdiv. unfold sampling_body, build_sampler.
  apply String.eqb_neq in Hmode. rewrite Hmode.
  rewrite schedule_violation by assumption. reflexivity.
Qed.

Lemma sampling_block_violation (cfg : Config) (env : Env) :
  inference cfg <> "HMC" -> cycles cfg <> 0 ->
  (n_samples cfg * skip cfg) mod cycles cfg <> 0 ->
  (exists e, snd (sampling_block cfg env) = Raise e /\
             (block_entered cfg env = true -> e = AssertionError A_divisible)) /\
  never is_sampling (fst (sampling_block cfg env)) = true /\
  never is_loader (fst (sampling_block cfg env)) = true.
Proof.
  intros Hmode Hc Hdiv. destruct (block_entered cfg env) eqn:E.
  - rewrite (sampling_block_entered cfg env E).
    rewrite sampling_body_violation by assumption. simpl.
    split; [eexists; split; [reflexivity | reflexivity] |].
    unfold opened, closed. destruct (save_samples cfg); split; reflexivity.
  - rewrite (sampling_block_not_entered cfg env E). simpl.
    split; [eexists; split; [reflexivity | discriminate] |].
    destruct (metrics_openable env); split; reflexivity.
Qed.

(** C2.  When [requested_samples * skip] is not a multiple of the cycle
    count and the mode is not HMC, the schedule computation fails on its
    assertion, which is all the body of the sampling block then does; the
    run as a whole ends in an exception without having built a data loader
    or a sampler and without having started sampling. *)
Theorem schedule_violation_fails (cfg : Config) (env : Env) :
  inference cfg <> "HMC" ->
  (n_samples cfg * skip cfg) mod cycles cfg <> 0 ->
  (cycles cfg <> 0 ->
   schedule (n_samples cfg) (skip cfg) (cycles cfg) (warmup cfg) (burnin cfg)
   = ([], Raise (AssertionError A_divisible)) /\
   forall ms mo,
     sampling_body cfg env ms mo = ([], Raise (AssertionError A_divisible))) /\
  (exists e, snd (main cfg env) = Raise e /\
             (snd (prepare cfg env) = Ret tt -> block_entered cfg env = true ->
              e = AssertionError A_divisible)) /\
  never is_sampling (fst (main cfg env)) = true /\
  never is_loader (fst (main cfg env)) = true.
Proof.
  intros Hmode Hdiv. split.
  - intros Hc. split; [apply schedule_violation; assumption |].
    intros ms mo. apply sampling_body_violation; assumption.
  - destruct (prepare_never_sampling cfg env) as [Hp1 [Hp2 _]].
    destruct (main_cases cfg env)
      as [[e [He ->]] | [[Hp [e [He ->]]] | [Hp [mb [Hmb _]]]]]; simpl.
    + split; [| split; assumption].
      exists e. split; [reflexivity |]. rewrite He. discriminate.
    + assert (Hc : cycles cfg <> 0).
      { apply prepare_ret, validate_ret in Hp. lia. }
      destruct (sampling_block_violation cfg env Hmode Hc Hdiv)
        as [[e' [He' Hent]] [Hb1 Hb2]].
      rewrite !never_app, Hp1, Hp2, Hb1, Hb2.
      split; [| split; reflexivity].
      exists e. split; [reflexivity |]. intros _ Hin.
      rewrite He in He'. inversion He'. auto.
    + exfalso.
      assert (Hc : cycles cfg <> 0).
      { apply prepare_ret, validate_ret in Hp. lia. }
      destruct (sampling_block_violation cfg env Hmode Hc Hdiv)
        as [[e' [He' _]] _].
      congruence.
Qed.

Lemma schedule_violation_fails_witness :
  inference Samples.indivisible_config <> "HMC" /\
  (100 * 5) mod 3 <> 0 /\
  main Samples.indivisible_config Samples.quiet_env
  = ([EvGetData; EvGetModel; EvInitialize He; EvOpen MetricsSink;
      EvOpen SampleSink; EvClose SampleSink; EvClose MetricsSink],
     Raise (AssertionError A_divisible)) /\
  never is_sampling (fst (main Samples.indivisible_config Samples.quiet_env))
  = true.
Proof.
  assert (Hmode : inference Samples.indivisible_config <> "HMC")
    by discriminate.
  assert (Hdiv : (n_samples Samples.indivisible_config
                  * skip Samples.indivisible_config)
                 mod cycles Samples.indivisible_config <> 0)
    by discriminate.
  split; [exact Hmode |]. split; [exact Hdiv |]. split; [reflexivity |].
  exact (proj1 (proj2 (proj2
    (schedule_violation_fails Samples.indivisible_config Samples.quiet_env
       Hmode Hdiv)))).
Defined.

(* ================================================================== *)
(** ** The sampling block *)
(* ================================================================== *)

Lemma sampler_run_eq (s : sampler) (pb : bool) (env : Env) :
  sampler_run s pb env =
  (EvRun pb :: write_events (sampler_sinks s) (run_writes env),
   match run_failure env with
   | Some msg => Raise (ExternalError msg)
   | None => Ret tt
   end).
Proof.
  unfold sampler_run. destruct (run_failure env); simpl;
    rewrite app_nil_r; reflexivity.
Qed.

Lemma write_events_nil (ws : list (sink * Z)) : write_events [] ws = [].
Proof.
  unfold write_events. induction ws as [| w ws IH]; [reflexivity | exact IH].
Qed.

(** The body once the sampler is built: the run, its records, and then the
    run's own end. *)
Lemma sampling_body_built (cfg : Config) (env : Env) (ms : sink)
      (mo : option sink) (t : list event) (mb : sampler * option Z) :
  build_sampler cfg env ms mo = (t, Ret mb) ->
  sampling_body cfg env ms mo =
  (t ++ EvRun (progressbar cfg)
     :: write_events (sampler_sinks (fst mb)) (run_writes env),
   match run_failure env with
   | Some msg => Raise (ExternalError msg)
   | None => Ret mb
   end).
Proof.
  intros H. unfold sampling_body. rewrite (fst_bind_ret _ _ t mb H).
  cbv beta. rewrite sampler_run_eq.
  destruct (run_failure env); simpl; rewrite ?app_nil_r; reflexivity.
Qed.

Lemma sampling_body_not_built (cfg : Config) (env : Env) (ms : sink)
      (mo : option sink) (t : list event) (e : exn) :
  build_sampler cfg env ms mo = (t, Raise e) ->
  sampling_body cfg env ms mo = (t, Raise e).
Proof. intros H. unfold sampling_body. rewrite H. reflexivity. Qed.

(** Lines 175-179. *)
Lemma build_sampler_hmc (cfg : Config) (env : Env) (ms : sink)
      (mo : option sink) :
  inference cfg = "HMC" ->
  build_sampler cfg env ms mo =
  ([EvGetPotential (Z.of_nat (train_len env));
    EvHMCKernel false false (1 # 1000) 32;
    EvMCMC (n_samples cfg) (warmup cfg)],
   Ret (PyroMCMC, batch_size cfg)).
Proof. intros H. unfold build_sampler. rewrite H. reflexivity. Qed.

Lemma sampling_body_hmc (cfg : Config) (env : Env) (ms : sink)
      (mo : option sink) :
  inference cfg = "HMC" ->
  sampling_body cfg env ms mo =
  ([EvGetPotential (Z.of_nat (train_len env));
    EvHMCKernel false false (1 # 1000) 32;
    EvMCMC (n_samples cfg) (warmup cfg);
    EvRun (progressbar cfg)],
   match run_failure env with
   | Some msg => Raise (ExternalError msg)
   | None => Ret (PyroMCMC, batch_size cfg)
   end).
Proof.
  intros H.
  rewrite (sampling_body_built cfg env ms mo _ _ (build_sampler_hmc cfg env ms mo H)).
  simpl. rewrite write_events_nil. reflexivity.
Qed.

(** Lines 181-205 for a schedule that passes. *)
Lemma build_sampler_runner (cfg : Config) (env : Env) (ms : sink)
      (mo : option sink) (cls : runner_class) :
  inference cfg <> "HMC" -> cycles cfg <> 0 ->
  (n_samples cfg * skip cfg) mod cycles cfg = 0 ->
  select_runner (inference cfg) = Some cls ->
  let sample_epochs := n_samples cfg * skip cfg / cycles cfg in
  let bs := match batch_size cfg with
            | None => Z.of_nat (train_len env)
            | Some b => b
            end in
  let nw := if train_is_tensor_dataset env then 0 else 2 in
  build_sampler cfg env ms mo =
  ([EvDataLoader TrainSplit bs true nw;
    EvDataLoader TestSplit bs false nw;
    EvRunner cls
      (mkRunnerArgs (warmup cfg + burnin cfg + sample_epochs) (warmup cfg)
         sample_epochs (lr cfg) (skip cfg) (metrics_skip cfg)
         (sampling_decay cfg) (cycles cfg) (temperature cfg) (momentum cfg)
         (precond_update cfg) ms mo (reject_samples cfg))],
   Ret (Runner cls (saver_sinks ms mo), Some bs)).
Proof.
  intros Hmode Hc Hdiv Hsel. unfold build_sampler, schedule, py_mod, py_floordiv.
  apply String.eqb_neq in Hmode. apply Z.eqb_neq in Hc.
  rewrite Hmode, Hc, Hsel, Hdiv. reflexivity.
Qed.

(** A valid mode other than HMC selects a runner. *)
Lemma select_runner_valid (mode : string) :
  existsb (String.eqb mode) valid_inference = true -> mode <> "HMC" ->
  exists cls, select_runner mode = Some cls.
Proof.
  unfold valid_inference, select_runner. simpl. intros H Hmode.
  apply String.eqb_neq in Hmode. rewrite Hmode in H. simpl in H.
  repeat match goal with
         | |- context [String.eqb mode ?s] =>
             destruct (String.eqb mode s); [eexists; reflexivity |]
         end.
  discriminate.
Qed.

(** The body ends on the divisibility assertion only outside the HMC mode
    and only before it has done anything. *)
Lemma sampling_body_divisible (cfg : Config) (env : Env) (ms : sink)
      (mo : option sink) :
  snd (sampling_body cfg env ms mo) = Raise (AssertionError A_divisible) ->
  inference cfg <> "HMC" /\ fst (sampling_body cfg env ms mo) = [].
Proof.
  destruct (build_sampler cfg env ms mo) as [t [mb | e]] eqn:Hb.
  - rewrite (sampling_body_built cfg env ms mo t mb Hb). simpl.
    destruct (run_failure env); discriminate.
  - rewrite (sampling_body_not_built cfg env ms mo t e Hb). simpl.
    intros He. inversion He; subst e. clear He. revert Hb.
    unfold build_sampler, schedule, py_mod, py_floordiv.
    destruct (String.eqb (inference cfg) "HMC") eqn:Hmode; [discriminate |].
    apply String.eqb_neq in Hmode.
    destruct (cycles cfg =? 0); [discriminate |]. rewrite bind_ret_l.
    destruct ((n_samples cfg * skip cfg) mod cycles cfg =? 0).
    + simpl. destruct (select_runner (inference cfg)); discriminate.
    + simpl. intros H. inversion H. auto.
Qed.

Lemma sampling_block_divisible (cfg : Config) (env : Env) :
  snd (sampling_block cfg env) = Raise (AssertionError A_divisible) ->
  inference cfg <> "HMC" /\
  fst (sampling_block cfg env) = opened cfg ++ closed cfg.
Proof.
  destruct (block_entered cfg env) eqn:E.
  - rewrite (sampling_block_entered cfg env E). simpl. intros H.
    apply sampling_body_divisible in H. destruct H as [Hmode ->]. auto.
  - rewrite (sampling_block_not_entered cfg env E). discriminate.
Qed.

Lemma count_closed (cfg : Config) :
  count (is_close_of MetricsSink) (closed cfg) = 1%nat /\
  count (is_close_of SampleSink) (closed cfg)
  = (if save_samples cfg then 1 else 0)%nat /\
  never is_write (closed cfg) = true /\
  forallb is_close (closed cfg) = true.
Proof. unfold closed. destruct (save_samples cfg); repeat split. Qed.

Lemma count_opened (cfg : Config) (p : event -> bool) :
  (forall s, p (EvOpen s) = false) -> count p (opened cfg) = 0%nat.
Proof.
  intros H. unfold opened, count. destruct (save_samples cfg); simpl;
    rewrite ?H; reflexivity.
Qed.

Lemma sat_count_zero {A} (P : event -> bool) (Q : exn -> bool) (m : M A)
      (p : event -> bool) :
  sat P Q m -> (forall ev, P ev = true -> p ev = false) ->
  count p (fst m) = 0%nat.
Proof.
  intros [Hev _] H. apply never_count. unfold never.
  rewrite forallb_forall in *. intros ev Hin.
  rewrite (H ev (Hev ev Hin)). reflexivity.
Qed.

(* ================================================================== *)
(** ** Scoped sinks: the claim *)
(* ================================================================== *)

(** C5.  Once both sinks are open, the block performs the openings, then
    whatever the body does up to its exit, then the closings and nothing
    else; its outcome is the body's.  So the metrics sink is closed exactly
    once on every exit, the sample sink exactly once when samples are saved
    (and there is none otherwise), and no record is written after the body
    has ended.  When [run()] raises after some of its records, the body ends
    right after those records with the run's exception, and [main] does
    nothing after the closings. *)
Theorem sinks_closed_exactly_once (cfg : Config) (env : Env) :
  block_entered cfg env = true ->
  let body := sampling_body cfg env MetricsSink (model_saver_of cfg) in
  sampling_block cfg env = (opened cfg ++ fst body ++ closed cfg, snd body) /\
  count (is_close_of MetricsSink) (fst (sampling_block cfg env)) = 1%nat /\
  count (is_close_of SampleSink) (fst (sampling_block cfg env))
  = (if save_samples cfg then 1 else 0)%nat /\
  never is_write (closed cfg) = true /\
  forallb is_close (closed cfg) = true /\
  (forall msg t mb,
     run_failure env = Some msg ->
     build_sampler cfg env MetricsSink (model_saver_of cfg) = (t, Ret mb) ->
     body = (t ++ EvRun (progressbar cfg)
               :: write_events (sampler_sinks (fst mb)) (run_writes env),
             Raise (ExternalError msg))) /\
  (forall e,
     snd body = Raise e -> snd (prepare cfg env) = Ret tt ->
     main cfg env
     = (fst (prepare cfg env) ++ opened cfg ++ fst body ++ closed cfg,
        Raise e)).
Proof.
  intros Hent body.
  pose proof (sampling_block_entered cfg env Hent) as Hblock.
  fold body in Hblock.
  destruct (count_closed cfg) as [Hc1 [Hc2 [Hc3 Hc4]]].
  assert (Hbody : forall s, count (is_close_of s) (fst body) = 0%nat).
  { intros s. apply (sat_count_zero _ _ _ _ (sampling_body_sat cfg env _ _)).
    intros []; simpl; congruence. }
  split; [exact Hblock |]. rewrite Hblock. cbn [fst].
  rewrite !count_app, !Hbody, Hc1, Hc2.
  rewrite !count_opened by reflexivity.
  repeat split; try assumption.
  - intros msg t mb Hfail Hbuilt. unfold body.
    rewrite (sampling_body_built cfg env _ _ t mb Hbuilt), Hfail. reflexivity.
  - intros e He Hp.
    destruct (main_cases cfg env)
      as [[e' [He' _]] | [[_ [e' [He' ->]]] | [_ [mb [Hmb _]]]]].
    + congruence.
    + rewrite Hblock in *. simpl in *. congruence.
    + rewrite Hblock in Hmb. simpl in Hmb. congruence.
Qed.

Lemma sinks_closed_exactly_once_witness :
  block_entered (default_config "SGLD" "he" None) Samples.failing_env = true /\
  fst (sampling_block (default_config "SGLD" "he" None) Samples.failing_env)
  = [EvOpen MetricsSink; EvOpen SampleSink]
    ++ fst (sampling_body (default_config "SGLD" "he" None) Samples.failing_env
              MetricsSink (Some SampleSink))
    ++ [EvClose SampleSink; EvClose MetricsSink] /\
  count (is_close_of MetricsSink)
    (fst (sampling_block (default_config "SGLD" "he" None) Samples.failing_env))
  = 1%nat.
Proof.
  split; [reflexivity |]. split; [reflexivity |].
  exact (proj1 (proj2
    (sinks_closed_exactly_once (default_config "SGLD" "he" None)
       Samples.failing_env eq_refl))).
Defined.

(* ================================================================== *)
(** ** Configuration errors: the claim *)
(* ================================================================== *)

(** C6, as the specification states it, fails: the divisibility assertion
    sits inside the [with] statement, so it is raised after both sinks have
    been opened. *)
Lemma divisibility_error_after_sinks_opened :
  main Samples.indivisible_config Samples.quiet_env
  = ([EvGetData; EvGetModel; EvInitialize He; EvOpen MetricsSink;
      EvOpen SampleSink; EvClose SampleSink; EvClose MetricsSink],
     Raise (AssertionError A_divisible)) /\
  is_configuration_error (AssertionError A_divisible) = true /\
  never is_open (fst (main Samples.indivisible_config Samples.quiet_env))
  = false.
Proof. repeat split. Qed.

(** C6, amended.  A run that ends in a configuration error has built no
    data loader and no sampler and has not started sampling.  Unless the
    error is the divisibility assertion, no sink has been opened either.
    The divisibility assertion is raised only outside the HMC mode, as the
    first thing inside the sampling block: both sinks have been opened, and
    all that follows is their closing. *)
Theorem configuration_errors_before_sampling (cfg : Config) (env : Env)
        (e : exn) :
  snd (main cfg env) = Raise e ->
  is_configuration_error e = true ->
  never is_sampling (fst (main cfg env)) = true /\
  never is_loader (fst (main cfg env)) = true /\
  (e <> AssertionError A_divisible ->
   never is_open (fst (main cfg env)) = true) /\
  (e = AssertionError A_divisible ->
   inference cfg <> "HMC" /\
   fst (main cfg env) = fst (prepare cfg env) ++ opened cfg ++ closed cfg).
Proof.
  intros Hres Hcfg.
  destruct (prepare_never_sampling cfg env) as [Hp1 [Hp2 Hp3]].
  destruct (main_cases cfg env)
    as [[e' [He' Hmain]] | [[Hp [e' [He' Hmain]]] | [Hp [mb [Hmb Hmain]]]]];
    rewrite Hmain in *; cbn [fst snd] in *.
  - inversion Hres; subst e'.
    split; [exact Hp1 |]. split; [exact Hp2 |]. split; [intros _; exact Hp3 |].
    intros Hdiv. pose proof (prepare_sat cfg env) as [_ Hex].
    rewrite He', Hdiv in Hex. discriminate.
  - inversion Hres; subst e'.
    pose proof (sampling_block_sat cfg env) as [_ Hex]. rewrite He' in Hex.
    assert (Hdiv : e = AssertionError A_divisible).
    { destruct e as [[] | | | | | | |]; simpl in *; congruence. }
    subst e. destruct (sampling_block_divisible cfg env He') as [Hmode Htr].
    rewrite Htr, !never_app, Hp1, Hp2.
    repeat split; try congruence; try exact Hmode;
      unfold opened, closed; destruct (save_samples cfg); reflexivity.
  - pose proof (evaluate_sat env (snd mb)) as [_ Hex]. rewrite Hres in Hex.
    destruct e; simpl in *; congruence.
Qed.

Lemma configuration_errors_before_sampling_witness :
  snd (main Samples.indivisible_config Samples.quiet_env)
  = Raise (AssertionError A_divisible) /\
  is_configuration_error (AssertionError A_divisible) = true /\
  never is_sampling (fst (main Samples.indivisible_config Samples.quiet_env))
  = true.
Proof.
  split; [reflexivity |]. split; [reflexivity |].
  exact (proj1
    (configuration_errors_before_sampling Samples.indivisible_config
       Samples.quiet_env (AssertionError A_divisible) eq_refl eq_refl)).
Defined.

(* ================================================================== *)
(** ** The HMC mode: the claim *)
(* ================================================================== *)

Lemma sampling_block_hmc (cfg : Config) (env : Env) :
  inference cfg = "HMC" -> block_entered cfg env = true ->
  sampling_block cfg env =
  (opened cfg ++
   [EvGetPotential (Z.of_nat (train_len env));
    EvHMCKernel false false (1 # 1000) 32;
    EvMCMC (n_samples cfg) (warmup cfg);
    EvRun (progressbar cfg)] ++ closed cfg,
   match run_failure env with
   | Some msg => Raise (ExternalError msg)
   | None => Ret (PyroMCMC, batch_size cfg)
   end).
Proof.
  intros Hmode Hent. rewrite (sampling_block_entered cfg env Hent).
  rewrite (sampling_body_hmc cfg env _ _ Hmode). reflexivity.
Qed.

(** In the HMC mode the block builds the kernel of lines 176-178 once if it
    is entered and not at all otherwise, and never a runner. *)
Lemma sampling_block_hmc_counts (cfg : Config) (env : Env) :
  inference cfg = "HMC" ->
  count is_kernel (fst (sampling_block cfg env))
  = (if block_entered cfg env then 1 else 0)%nat /\
  count is_fixed_kernel (fst (sampling_block cfg env))
  = (if block_entered cfg env then 1 else 0)%nat /\
  never is_runner (fst (sampling_block cfg env)) = true /\
  snd (sampling_block cfg env) <> Raise (AssertionError A_divisible).
Proof.
  intros Hmode. destruct (block_entered cfg env) eqn:E.
  - rewrite (sampling_block_hmc cfg env Hmode E). cbn [fst snd].
    unfold opened, closed.
    destruct (save_samples cfg), (run_failure env); repeat split; discriminate.
  - rewrite (sampling_block_not_entered cfg env E). cbn [fst snd].
    destruct (metrics_openable env); repeat split; discriminate.
Qed.

(** In the HMC mode neither the skip nor the cycle count, as long as it
    passes line 120, has any effect on the run. *)
Lemma main_hmc_ignores_schedule (cfg : Config) (env : Env) (s c : Z) :
  inference cfg = "HMC" -> 0 < cycles cfg -> 0 < c ->
  main (with_schedule cfg (n_samples cfg) s c) env = main cfg env.
Proof.
  intros Hmode Hc Hc'.
  unfold main, prepare, validate, initialize_or_resume, sampling_block,
    model_saver_enter, sampling_body, build_sampler, with_schedule.
  cbn [inference width n_samples warmup init_method burnin skip metrics_skip
       cycles temperature momentum precond_update lr batch_size load_samples
       save_samples reject_samples sampling_decay progressbar].
  rewrite Hmode. apply Z.ltb_lt in Hc, Hc'. rewrite Hc, Hc'. reflexivity.
Qed.

(** C7.  In the HMC mode the sampler is built from the potential and one
    library kernel with [step_size = 1e-3] and [num_steps = 32], without the
    schedule being computed: the run never fails on the divisibility
    assertion and builds no runner, the skip and the cycle count have no
    effect on it, and a run that reaches the sampling block constructs the
    kernel exactly once. *)
Theorem hmc_bypasses_schedule (cfg : Config) (env : Env) :
  inference cfg = "HMC" ->
  (forall ms mo,
     build_sampler cfg env ms mo =
     ([EvGetPotential (Z.of_nat (train_len env));
       EvHMCKernel false false hmc_step_size hmc_num_steps;
       EvMCMC (n_samples cfg) (warmup cfg)],
      Ret (PyroMCMC, batch_size cfg))) /\
  hmc_step_size = 1 # 1000 /\ hmc_num_steps = 32 /\
  snd (main cfg env) <> Raise (AssertionError A_divisible) /\
  never is_runner (fst (main cfg env)) = true /\
  (forall s c, 0 < cycles cfg -> 0 < c ->
     main (with_schedule cfg (n_samples cfg) s c) env = main cfg env) /\
  (snd (prepare cfg env) = Ret tt -> block_entered cfg env = true ->
   count is_kernel (fst (main cfg env)) = 1%nat /\
   count is_fixed_kernel (fst (main cfg env)) = 1%nat).
Proof.
  intros Hmode.
  destruct (sampling_block_hmc_counts cfg env Hmode) as [Hk [Hfk [Hr Hd]]].
  assert (Hpr : never is_runner (fst (prepare cfg env)) = true)
    by (apply prepare_never; intros []; simpl; congruence).
  assert (Hpk : forall p, (forall ev, is_kernel ev = false -> p ev = false) ->
                count p (fst (prepare cfg env)) = 0%nat).
  { intros p Hp. apply (sat_count_zero _ _ _ _ (prepare_sat cfg env)).
    intros ev Hev. apply Hp. destruct ev; simpl in *; congruence. }
  assert (Hek : forall bs p, (forall ev, is_kernel ev = false -> p ev = false) ->
                count p (fst (evaluate env bs)) = 0%nat).
  { intros bs p Hp. apply (sat_count_zero _ _ _ _ (evaluate_sat env bs)).
    intros ev Hev. apply Hp. destruct ev; simpl in *; congruence. }
  assert (Hfixed : forall ev, is_kernel ev = false -> is_fixed_kernel ev = false)
    by (intros []; simpl; congruence).
  split; [intros ms mo; apply build_sampler_hmc, Hmode |].
  split; [reflexivity |]. split; [reflexivity |].
  split; [| split; [| split]].
  - destruct (main_cases cfg env)
      as [[e [He ->]] | [[_ [e [He ->]]] | [_ [mb [_ ->]]]]]; cbn [snd].
    + pose proof (prepare_sat cfg env) as [_ Hex]. rewrite He in Hex.
      intros H. inversion H; subst e. discriminate.
    + congruence.
    + pose proof (evaluate_sat env (snd mb)) as [_ Hex].
      destruct (snd (evaluate env (snd mb))) as [| e]; [discriminate |].
      intros H. inversion H; subst e. discriminate.
  - destruct (main_cases cfg env)
      as [[e [_ ->]] | [[_ [e [_ ->]]] | [_ [mb [_ ->]]]]]; cbn [fst];
      rewrite ?never_app, ?Hpr, ?Hr; cbn [andb]; try reflexivity.
    pose proof (evaluate_sat env (snd mb)) as [Hev _]. unfold never.
    rewrite forallb_forall in Hev. apply forallb_forall.
    intros ev Hin. specialize (Hev ev Hin).
    destruct ev; simpl in *; congruence.
  - intros s c. apply main_hmc_ignores_schedule, Hmode.
  - intros Hp Hent. rewrite Hent in Hk, Hfk.
    destruct (main_cases cfg env)
      as [[e [He _]] | [[_ [e [_ ->]]] | [_ [mb [_ ->]]]]]; cbn [fst];
      [congruence | |];
      rewrite ?count_app, Hk, Hfk, ?(Hek _ is_kernel), ?(Hek _ is_fixed_kernel),
        (Hpk is_kernel), (Hpk is_fixed_kernel) by auto;
      split; reflexivity.
Qed.

Lemma hmc_bypasses_schedule_witness :
  inference (default_config "HMC" "he" None) = "HMC" /\
  count is_fixed_kernel
    (fst (main (default_config "HMC" "he" None) Samples.quiet_env)) = 1%nat /\
  main (with_schedule (default_config "HMC" "he" None) 1000 7 3)
       Samples.quiet_env
  = main (default_config "HMC" "he" None) Samples.quiet_env.
Proof.
  pose proof (hmc_bypasses_schedule (default_config "HMC" "he" None)
                Samples.quiet_env eq_refl)
    as [_ [_ [_ [_ [_ [Hignore Hcount]]]]]].
  split; [reflexivity |]. split.
  - exact (proj2 (Hcount eq_refl eq_refl)).
  - apply (Hignore 7 3); reflexivity.
Defined.

(* ================================================================== *)
(** ** Batch sizes: the claim *)
(* ================================================================== *)

(** C8 (the code departs from it).  The evaluation loader is to get
    [min(configured or resolved batch size, test-set size)].  Only the
    branch of the runners resolves an unset batch size (lines 195-196); in
    the HMC mode with the default [batch_size = None] the sampling runs to
    its end, the sinks are closed, and line 211 then raises [TypeError] on
    [min(None, len(test))]: no evaluation loader is built. *)
Theorem hmc_unset_batch_size_fails_evaluation :
  batch_size (default_config "HMC" "he" None) = None /\
  main (default_config "HMC" "he" None) Samples.quiet_env
  = ([EvGetData; EvGetModel; EvInitialize He;
      EvOpen MetricsSink; EvOpen SampleSink;
      EvGetPotential 2000; EvHMCKernel false false (1 # 1000) 32;
      EvMCMC 1000 2000; EvRun true;
      EvClose SampleSink; EvClose MetricsSink;
      EvGetSamples; EvModelEval],
     Raise (TypeError
       "'<' not supported between instances of 'int' and 'NoneType'")).
Proof. split; reflexivity. Qed.

(** In the HMC mode no run with an unset batch size returns. *)
Lemma hmc_unset_batch_size_never_returns (cfg : Config) (env : Env) :
  inference cfg = "HMC" -> batch_size cfg = None ->
  snd (main cfg env) <> Ret tt.
Proof.
  intros Hmode Hbs.
  destruct (main_cases cfg env)
    as [[e [_ ->]] | [[_ [e [_ ->]]] | [_ [mb [Hmb ->]]]]]; cbn [snd];
    try discriminate.
  assert (Hsnd : snd mb = None).
  { destruct (block_entered cfg env) eqn:E.
    - rewrite (sampling_block_hmc cfg env Hmode E) in Hmb. cbn [snd] in Hmb.
      destruct (run_failure env); [discriminate |].
      inversion Hmb. exact Hbs.
    - rewrite (sampling_block_not_entered cfg env E) in Hmb. discriminate. }
  rewrite Hsnd. discriminate.
Qed.

(** With a runner the claim holds: a run that returns has built the
    training loader with the resolved batch size and the evaluation loader
    with that size clamped to the test set. *)
Lemma runner_batch_sizes (cfg : Config) (env : Env) :
  inference cfg <> "HMC" ->
  snd (main cfg env) = Ret tt ->
  let bs := resolved_batch_size cfg env in
  let nw := if train_is_tensor_dataset env then 0 else 2 in
  exists pre mid,
    fst (main cfg env)
    = pre ++ [EvDataLoader TrainSplit bs true nw;
              EvDataLoader TestSplit bs false nw] ++ mid
          ++ [EvGetSamples; EvModelEval;
              EvDataLoader TestSplit (Z.min bs (Z.of_nat (test_len env))) false 0;
              EvEvaluate].
Proof.
  intros Hmode Hres bs nw.
  destruct (main_cases cfg env)
    as [[e [_ Hmain]] | [[_ [e [_ Hmain]]] | [Hp [mb [Hmb Hmain]]]]];
    rewrite Hmain in *; cbn [fst snd] in *; try discriminate.
  apply prepare_ret, validate_ret in Hp. destruct Hp as [Hvalid [_ [_ Hc]]].
  destruct (select_runner_valid _ Hvalid Hmode) as [cls Hcls].
  destruct (block_entered cfg env) eqn:E;
    [| rewrite (sampling_block_not_entered cfg env E) in Hmb; discriminate].
  rewrite (sampling_block_entered cfg env E) in *. cbn [fst snd] in *.
  destruct (Z.eq_dec ((n_samples cfg * skip cfg) mod cycles cfg) 0)
    as [Hdiv | Hdiv];
    [| rewrite sampling_body_violation in Hmb by (assumption || lia);
       discriminate].
  assert (Hc0 : cycles cfg <> 0) by lia.
  pose proof (build_sampler_runner cfg env MetricsSink (model_saver_of cfg)
                cls Hmode Hc0 Hdiv Hcls) as Hbuild.
  cbv zeta in Hbuild.
  rewrite (sampling_body_built cfg env _ _ _ _ Hbuild) in *.
  cbn [fst snd] in *.
  destruct (run_failure env); [discriminate |]. inversion Hmb; subst mb.
  cbn [snd]. unfold evaluate, py_min. cbn [fst snd bind emit ret app].
  match goal with
  | |- context [EvRunner ?c ?a] => set (built := EvRunner c a)
  end.
  match goal with
  | |- context [write_events ?sinks ?ws] => set (records := write_events sinks ws)
  end.
  exists (fst (prepare cfg env) ++ opened cfg).
  exists (built :: EvRun (progressbar cfg) :: records ++ closed cfg).
  unfold bs, nw, resolved_batch_size.
  rewrite <- !app_assoc. cbn [app]. rewrite <- !app_assoc. reflexivity.
Qed.

(* ================================================================== *)
(** ** Resuming skips the initialisation: the claim *)
(* ================================================================== *)

(** C10.  With a checkpoint path, no initialisation scheme is applied and
    the run never ends in the unknown-scheme [ValueError], whatever
    [init_method] is: the run is the same for every value of it. *)
Theorem checkpoint_skips_initialization (cfg : Config) (env : Env)
        (path : string) :
  load_samples cfg = Some path ->
  never is_initialize (fst (main cfg env)) = true /\
  (forall msg, snd (main cfg env) <> Raise (ValueError msg)) /\
  (forall m, main (with_init_method cfg m) env = main cfg env).
Proof.
  intros Hpath.
  assert (Hres : resuming cfg = true) by (unfold resuming; rewrite Hpath; reflexivity).
  split; [| split].
  - apply main_never. unfold is_main_event. rewrite Hres.
    intros []; simpl; congruence.
  - intros msg Hmsg. pose proof (main_sat cfg env) as [_ Hex].
    rewrite Hmsg in Hex. unfold is_main_exn in Hex. rewrite Hres in Hex.
    discriminate.
  - intros m.
    unfold main, prepare, validate, initialize_or_resume, sampling_block,
      model_saver_enter, sampling_body, build_sampler, with_init_method.
    cbn [inference width n_samples warmup init_method burnin skip metrics_skip
         cycles temperature momentum precond_update lr batch_size load_samples
         save_samples reject_samples sampling_decay progressbar].
    rewrite Hpath. reflexivity.
Qed.

Lemma checkpoint_skips_initialization_witness :
  load_samples (default_config "SGLD" "no_such_scheme" (Some "samples.pt"))
  = Some "samples.pt" /\
  never is_initialize
    (fst (main (default_config "SGLD" "no_such_scheme" (Some "samples.pt"))
               Samples.quiet_env)) = true /\
  snd (main (default_config "SGLD" "no_such_scheme" (Some "samples.pt"))
            Samples.quiet_env) = Ret tt.
Proof.
  split; [reflexivity |]. split; [| reflexivity].
  exact (proj1
    (checkpoint_skips_initialization
       (default_config "SGLD" "no_such_scheme" (Some "samples.pt"))
       Samples.quiet_env "samples.pt" eq_refl)).
Defined.

(** The unknown-scheme failure needs a run without a checkpoint path. *)
Lemma unknown_init_method_without_checkpoint (cfg : Config) (env : Env)
      (msg : string) :
  snd (main cfg env) = Raise (ValueError msg) -> load_samples cfg = None.
Proof.
  intros Hmsg. pose proof (main_sat cfg env) as [_ Hex].
  rewrite Hmsg in Hex. unfold is_main_exn, resuming in Hex.
  destruct (load_samples cfg); [discriminate | reflexivity].
Qed.

(** Without a checkpoint path an unknown scheme does end the run, before
    any sink is opened. *)
Lemma unknown_init_method_raises :
  main (default_config "SGLD" "no_such_scheme" None) Samples.quiet_env
  = ([EvGetData; EvGetModel],
     Raise (ValueError "unknown init_method=no_such_scheme")).
Proof. reflexivity. Qed.

(* ================================================================== *)
(** ** Checkpoint reconciliation: outcome and installed store *)
(* ================================================================== *)

Lemma size_eqb_eq (s1 s2 : list Z) : size_eqb s1 s2 = true -> s1 = s2.
Proof.
  revert s2. induction s1 as [| a s1 IH]; intros [| b s2]; simpl;
    try discriminate; [reflexivity |].
  intros H. apply andb_true_iff in H. destruct H as [Hab H].
  apply Z.eqb_eq in Hab. subst b. f_equal. apply IH, H.
Qed.

(** With every pending key known to the model the loop runs to its end, and
    the store keeps its keys. *)
Lemma reconcile_loop_returns (n : nat) (pending : list key)
      (model_sd sd : dict) :
  List.length sd = n ->
  incl pending (dict_keys sd) ->
  forallb (fun k => dict_contains k model_sd) pending = true ->
  exists t sd',
    reconcile_loop n pending model_sd sd = (t, Ret sd') /\
    dict_keys sd' = dict_keys sd.
Proof.
  revert sd. induction pending as [| k rest IH]; intros sd Hlen Hincl Hknown;
    rewrite reconcile_loop_eq, Hlen, Nat.eqb_refl; simpl negb; cbv iota.
  - exists [], sd. split; reflexivity.
  - simpl in Hknown. apply andb_true_iff in Hknown. destruct Hknown as [Hc Hknown].
    assert (Hk : In k (dict_keys sd)) by (apply Hincl; left; reflexivity).
    assert (Hrest : incl rest (dict_keys sd))
      by (intros x Hx; apply Hincl; right; exact Hx).
    rewrite Hc. simpl negb. cbv iota.
    pose proof Hc as Hc'. apply dict_contains_In in Hc'.
    destruct (getitem_present k model_sd Hc') as [m [_ ->]].
    destruct (getitem_present k sd Hk) as [l [_ ->]].
    rewrite !bind_ret_l.
    destruct (negb (size_eqb (size m) (size l))).
    + destruct (IH (dict_setitem k m sd)) as [t [sd' [Hloop Hkeys]]].
      * rewrite length_setitem_present by exact Hk. exact Hlen.
      * rewrite dict_keys_setitem_present by exact Hk. exact Hrest.
      * exact Hknown.
      * rewrite bind_emit, Hloop. eexists. exists sd'. split; [reflexivity |].
        rewrite Hkeys. apply dict_keys_setitem_present, Hk.
    + apply IH; assumption.
Qed.

Lemma dict_keys_update_known (d other : dict) :
  incl (dict_keys other) (dict_keys d) ->
  dict_keys (dict_update d other) = dict_keys d.
Proof.
  unfold dict_update. revert d.
  induction other as [| [k v] other IH]; simpl; intros d H; [reflexivity |].
  assert (Hk : In k (dict_keys d)) by (apply H; left; reflexivity).
  rewrite IH; [apply dict_keys_setitem_present, Hk |].
  rewrite dict_keys_setitem_present by exact Hk.
  intros x Hx. apply H. right. exact Hx.
Qed.

Lemma all_known_incl (model_sd state_dict : dict) :
  all_known model_sd state_dict = true <->
  incl (dict_keys state_dict) (dict_keys model_sd).
Proof.
  unfold all_known. rewrite forallb_forall. split; intros H k Hk.
  - apply dict_contains_In, H, Hk.
  - apply dict_contains_In, H, Hk.
Qed.

Lemma reconcile_cases (model_sd state_dict : dict) :
  (all_known model_sd state_dict = true ->
   exists tr merged,
     reconcile model_sd state_dict = (tr, Ret merged) /\
     dict_keys merged = dict_keys model_sd /\
     count is_load_state_dict tr = 1%nat) /\
  (all_known model_sd state_dict = false ->
   snd (reconcile model_sd state_dict) = Raise dict_changed_size /\
   count is_load_state_dict (fst (reconcile model_sd state_dict)) = 0%nat).
Proof.
  split; intros Hknown.
  - destruct (reconcile_loop_returns (List.length state_dict)
                (dict_keys state_dict) model_sd state_dict eq_refl
                (incl_refl _) Hknown) as [t [sd' [Hloop Hkeys]]].
    unfold reconcile. rewrite Hloop. cbv [bind emit ret]. cbn [app].
    eexists. eexists. split; [reflexivity |]. split.
    + apply dict_keys_update_known. rewrite Hkeys.
      apply all_known_incl, Hknown.
    + pose proof (reconcile_loop_sat (List.length state_dict)
                    (dict_keys state_dict) model_sd state_dict) as Hsat.
      rewrite Hloop in Hsat.
      rewrite count_app, (sat_count_zero _ _ _ _ Hsat); [reflexivity |].
      intros []; simpl; congruence.
  - assert (Hex : exists k, In k (dict_keys state_dict) /\
                            dict_contains k model_sd = false).
    { unfold all_known in Hknown.
      induction (dict_keys state_dict) as [| k l IH];
        simpl in Hknown; [discriminate |].
      destruct (dict_contains k model_sd) eqn:Hk.
      - destruct (IH Hknown) as [k' [Hin Hk']]. exists k'.
        split; [right |]; assumption.
      - exists k. split; [left; reflexivity | exact Hk]. }
    pose proof (reconcile_loop_unknown_key (List.length state_dict)
                  (dict_keys state_dict) model_sd state_dict eq_refl
                  (incl_refl _) Hex) as Hraise.
    pose proof (reconcile_loop_sat (List.length state_dict)
                  (dict_keys state_dict) model_sd state_dict) as Hsat.
    unfold reconcile.
    destruct (reconcile_loop _ _ _ _) as [t r]. simpl in Hraise. subst r.
    simpl. split; [reflexivity |].
    apply (sat_count_zero _ _ _ _ Hsat). intros []; simpl; congruence.
Qed.

(** Reconciliation has two outcomes.  When the model has every key of the
    loaded store, a store is installed, by one call of [load_state_dict],
    and it has the model's keys in the model's order; otherwise the run ends
    in the dictionary iterator's [RuntimeError] and [load_state_dict] is
    never called. *)
Theorem reconcile_outcome (model_sd state_dict : dict) :
  (all_known model_sd state_dict = true ->
   exists tr merged,
     reconcile model_sd state_dict = (tr, Ret merged) /\
     dict_keys merged = dict_keys model_sd /\
     count is_load_state_dict tr = 1%nat) /\
  (all_known model_sd state_dict = false ->
   snd (reconcile model_sd state_dict) = Raise dict_changed_size /\
   count is_load_state_dict (fst (reconcile model_sd state_dict)) = 0%nat).
Proof. exact (reconcile_cases model_sd state_dict). Qed.

(** Reconciliation never fails on a lookup: the only exception it raises is
    the iterator's [RuntimeError]. *)
Theorem reconcile_only_raises_runtime_error (model_sd state_dict : dict)
        (e : exn) :
  snd (reconcile model_sd state_dict) = Raise e -> e = dict_changed_size.
Proof.
  destruct (all_known model_sd state_dict) eqn:Hknown.
  - destruct (proj1 (reconcile_cases model_sd state_dict) Hknown)
      as [tr [merged [-> _]]]. discriminate.
  - destruct (proj2 (reconcile_cases model_sd state_dict) Hknown) as [-> _].
    intros H. inversion H. reflexivity.
Qed.

Lemma reconcile_only_raises_runtime_error_witness :
  snd (reconcile Samples.model_store Samples.mixed_checkpoint)
  = Raise dict_changed_size /\
  dict_changed_size = dict_changed_size.
Proof.
  split; [reflexivity |].
  exact (reconcile_only_raises_runtime_error Samples.model_store
           Samples.mixed_checkpoint dict_changed_size eq_refl).
Defined.

Lemma reconcile_ret_merged (model_sd state_dict merged : dict)
      (tr : list event) :
  wf_dict state_dict = true ->
  reconcile model_sd state_dict = (tr, Ret merged) ->
  all_known model_sd state_dict = true /\
  merged = dict_update model_sd (map (resolve model_sd) state_dict) /\
  tr = mismatch_warnings model_sd state_dict ++
       [EvWarning (KeysNotFound
          (missing_keys model_sd (map (resolve model_sd) state_dict)));
        EvLoadStateDict merged].
Proof.
  intros Hwf Hrec.
  pose proof (reconcile_ret_all_known _ _ _ _ Hrec) as Hknown.
  pose proof (reconcile_known model_sd state_dict Hwf Hknown) as H.
  cbv zeta in H. rewrite Hrec in H. inversion H; subst. auto.
Qed.

Lemma merged_lookup (model_sd state_dict : dict) (k : key) :
  wf_dict state_dict = true ->
  all_known model_sd state_dict = true ->
  dict_get k (dict_update model_sd (map (resolve model_sd) state_dict))
  = merge_value (dict_get k model_sd) (dict_get k state_dict).
Proof.
  intros Hwf Hknown.
  rewrite dict_get_update
    by (unfold wf_dict; rewrite dict_keys_resolve; exact Hwf).
  rewrite dict_get_resolve.
  destruct (dict_get k state_dict) as [l |] eqn:Hl.
  - assert (Hin : In k (dict_keys state_dict)).
    { apply dict_contains_In. unfold dict_contains. rewrite Hl. reflexivity. }
    apply all_known_incl in Hknown. apply Hknown, dict_contains_In in Hin.
    unfold dict_contains in Hin. unfold resolve. simpl.
    destruct (dict_get k model_sd) as [m |]; [| discriminate]. simpl.
    destruct (size_eqb (size m) (size l)); reflexivity.
  - destruct (dict_get k model_sd); reflexivity.
Qed.

(** The installed store, key by key: a key of both stores gets the loaded
    tensor when the sizes agree and the model's tensor when they differ, a
    key the checkpoint lacks keeps the model's tensor, and no other key is
    there. *)
Theorem reconcile_merge_pointwise (model_sd state_dict merged : dict)
        (tr : list event) (k : key) :
  wf_dict state_dict = true ->
  reconcile model_sd state_dict = (tr, Ret merged) ->
  dict_get k merged
  = merge_value (dict_get k model_sd) (dict_get k state_dict).
Proof.
  intros Hwf Hrec.
  destruct (reconcile_ret_merged _ _ _ _ Hwf Hrec) as [Hknown [-> _]].
  apply merged_lookup; assumption.
Qed.

Lemma reconcile_merge_pointwise_witness :
  wf_dict Cases.bias_checkpoint = true /\
  reconcile Samples.model_store Cases.bias_checkpoint
  = ([EvWarning (KeysNotFound ["w"]); EvLoadStateDict Cases.resumed_store],
     Ret Cases.resumed_store) /\
  dict_get "b" Cases.resumed_store
  = merge_value (dict_get "b" Samples.model_store)
                (dict_get "b" Cases.bias_checkpoint).
Proof.
  split; [reflexivity |]. split; [reflexivity |].
  apply (reconcile_merge_pointwise Samples.model_store Cases.bias_checkpoint
           Cases.resumed_store
           [EvWarning (KeysNotFound ["w"]);
            EvLoadStateDict Cases.resumed_store] "b");
    reflexivity.
Defined.

(** Every tensor of the installed store has the size the model has under
    the same key, so the store fits the model it is loaded into. *)
Theorem reconcile_installs_model_sizes (model_sd state_dict merged : dict)
        (tr : list event) (k : key) (m : tensor) :
  wf_dict state_dict = true ->
  reconcile model_sd state_dict = (tr, Ret merged) ->
  dict_get k model_sd = Some m ->
  exists v, dict_get k merged = Some v /\ size v = size m.
Proof.
  intros Hwf Hrec Hm.
  destruct (reconcile_ret_merged _ _ _ _ Hwf Hrec) as [Hknown [-> _]].
  rewrite merged_lookup by assumption. rewrite Hm.
  destruct (dict_get k state_dict) as [l |]; simpl.
  - destruct (size_eqb (size m) (size l)) eqn:E.
    + exists l. split; [reflexivity |]. symmetry. apply size_eqb_eq, E.
    + exists m. auto.
  - exists m. auto.
Qed.

Lemma reconcile_installs_model_sizes_witness :
  wf_dict Samples.wider_checkpoint = true /\
  dict_get "w" Samples.model_store = Some Samples.weight_2x3 /\
  exists v, dict_get "w" Samples.merged_store = Some v /\
            size v = size Samples.weight_2x3.
Proof.
  split; [reflexivity |]. split; [reflexivity |].
  apply (reconcile_installs_model_sizes Samples.model_store
           Samples.wider_checkpoint Samples.merged_store
           [EvWarning (SizeMismatch "w" [2; 3] [4; 3]);
            EvWarning (KeysNotFound []);
            EvLoadStateDict Samples.merged_store] "w" Samples.weight_2x3);
    reflexivity.
Defined.




Lemma missing_keys_nil (model_sd : dict) :
  missing_keys model_sd [] = dict_keys model_sd.
Proof.
  unfold missing_keys. induction (dict_keys model_sd) as [| k l IH];
    [reflexivity |]. cbn [filter]. change (dict_contains k []) with false.
  cbn [negb]. f_equal. exact IH.
Qed.

(** An empty checkpoint installs the fresh model's store unchanged and
    reports every key of the model as missing. *)
Theorem reconcile_empty_checkpoint (model_sd : dict) :
  reconcile model_sd []
  = ([EvWarning (KeysNotFound (dict_keys model_sd)); EvLoadStateDict model_sd],
     Ret model_sd).
Proof.
  unfold reconcile. simpl. rewrite missing_keys_nil. reflexivity.
Qed.

(* ================================================================== *)
(** ** Validation and initialisation *)
(* ================================================================== *)

Lemma validate_cases (cfg : Config) :
  (validate cfg = ([], Ret tt) /\ valid_config cfg) \/
  (exists a, validate cfg = ([], Raise (AssertionError a)) /\
             a <> A_divisible /\ ~ valid_config cfg).
Proof.
  unfold validate, valid_config.
  destruct (existsb (String.eqb (inference cfg)) valid_inference) eqn:Hi.
  2: { right. exists A_inference. repeat split; try discriminate.
       intros [H _]. apply existsb_eqb_In in H. congruence. }
  apply existsb_eqb_In in Hi.
  destruct (0 <? width cfg) eqn:Hw.
  2: { right. exists A_width. repeat split; try discriminate.
       apply Z.ltb_ge in Hw. intros [_ [H _]]. lia. }
  destruct (0 <? n_samples cfg) eqn:Hn.
  2: { right. exists A_n_samples. repeat split; try discriminate.
       apply Z.ltb_ge in Hn. intros [_ [_ [H _]]]. lia. }
  destruct (0 <? cycles cfg) eqn:Hc.
  2: { right. exists A_cycles. repeat split; try discriminate.
       apply Z.ltb_ge in Hc. intros [_ [_ [_ [H _]]]]. lia. }
  destruct (Qle_bool 0 (temperature cfg)) eqn:Ht.
  2: { right. exists A_temperature. repeat split; try discriminate.
       intros [_ [_ [_ [_ H]]]]. apply Qle_bool_iff in H. congruence. }
  left. apply Z.ltb_lt in Hw, Hn, Hc. apply Qle_bool_iff in Ht.
  split; [reflexivity | auto].
Qed.


(** A configuration that fails lines 117-121 ends the run on one of their
    assertions before anything else has happened: no dataset, no model, no
    checkpoint and no sink has been touched. *)
Theorem invalid_config_touches_nothing (cfg : Config) (env : Env) :
  ~ valid_config cfg ->
  exists a, main cfg env = ([], Raise (AssertionError a)) /\ a <> A_divisible.
Proof.
  intros Hbad.
  destruct (validate_cases cfg) as [[_ Hok] | [a [Hv [Ha _]]]];
    [contradiction |].
  exists a. split; [| exact Ha].
  unfold main, prepare. rewrite Hv. reflexivity.
Qed.

Lemma invalid_config_touches_nothing_witness :
  ~ valid_config (with_schedule (default_config "SGLD" "he" None) 1000 5 0) /\
  exists a,
    main (with_schedule (default_config "SGLD" "he" None) 1000 5 0)
         Samples.quiet_env = ([], Raise (AssertionError a)) /\
    a <> A_divisible.
Proof.
  assert (H : ~ valid_config
                (with_schedule (default_config "SGLD" "he" None) 1000 5 0)).
  { intros [_ [_ [_ [Hc _]]]]. discriminate Hc. }
  split; [exact H |].
  exact (invalid_config_touches_nothing _ Samples.quiet_env H).
Defined.

Lemma initialize_cases (m : string) :
  (In m init_schemes /\ snd (initialize m) = Ret tt) \/
  (~ In m init_schemes /\
   initialize m = ([], Raise (ValueError (String.append "unknown init_method=" m)))).
Proof.
  unfold initialize, init_schemes.
  destruct (String.eqb m "he") eqn:E1;
    [apply String.eqb_eq in E1; subst; left; simpl; auto |].
  destruct (String.eqb m "he_uniform") eqn:E2;
    [apply String.eqb_eq in E2; subst; left; simpl; auto |].
  destruct (String.eqb m "he_zerobias") eqn:E3;
    [apply String.eqb_eq in E3; subst; left; simpl; auto |].
  destruct (String.eqb m "prior") eqn:E4;
    [apply String.eqb_eq in E4; subst; left; simpl; auto 6 |].
  right. split; [| reflexivity].
  apply String.eqb_neq in E1, E2, E3, E4. simpl. intuition congruence.
Qed.



Lemma initialize_or_resume_cases (cfg : Config) (env : Env) :
  (snd (initialize_or_resume cfg env) = Ret tt /\
   match load_samples cfg with
   | None => In (init_method cfg) init_schemes
   | Some _ =>
       exists sd, checkpoint env = Some sd /\
                  incl (dict_keys sd) (dict_keys (fresh_state_dict env))
   end) \/
  (exists e, snd (initialize_or_resume cfg env) = Raise e /\
     (e = unknown_init_method cfg \/ e = dict_changed_size \/
      e = ExternalError "load_samples") /\
   ~ match load_samples cfg with
     | None => In (init_method cfg) init_schemes
     | Some _ =>
         exists sd, checkpoint env = Some sd /\
                    incl (dict_keys sd) (dict_keys (fresh_state_dict env))
     end).
Proof.
  unfold initialize_or_resume, unknown_init_method.
  destruct (load_samples cfg) as [path |].
  - unfold exp_load_samples. destruct (checkpoint env) as [sd |].
    + destruct (all_known (fresh_state_dict env) sd) eqn:Hknown.
      * left.
        destruct (proj1 (reconcile_cases (fresh_state_dict env) sd) Hknown)
          as [tr [merged [Hrec _]]].
        simpl. rewrite Hrec. simpl. split; [reflexivity |].
        exists sd. split; [reflexivity |]. apply all_known_incl, Hknown.
      * right.
        destruct (proj2 (reconcile_cases (fresh_state_dict env) sd) Hknown)
          as [Hrec _].
        simpl. destruct (reconcile (fresh_state_dict env) sd) as [t r].
        simpl in Hrec. subst r. simpl. eexists. split; [reflexivity |].
        split; [auto |]. intros [sd' [Hsd Hincl]]. inversion Hsd; subst sd'.
        apply all_known_incl in Hincl. congruence.
    + right. simpl. eexists. split; [reflexivity |]. split; [auto |].
      intros [sd [Hsd _]]. discriminate.
  - destruct (initialize_cases (init_method cfg)) as [[Hin Hok] | [Hout Hraise]].
    + left. auto.
    + right. rewrite Hraise. simpl. eexists. split; [reflexivity |]. auto.
Qed.

Lemma prepare_cases (cfg : Config) (env : Env) :
  (snd (prepare cfg env) = Ret tt /\ reaches_block cfg env) \/
  (exists e, snd (prepare cfg env) = Raise e /\
     ((exists a, e = AssertionError a /\ a <> A_divisible) \/
      e = unknown_init_method cfg \/ e = dict_changed_size \/
      e = ExternalError "load_samples") /\
   ~ reaches_block cfg env).
Proof.
  unfold prepare, reaches_block.
  destruct (validate_cases cfg) as [[Hv Hok] | [a [Hv [Ha Hbad]]]]; rewrite Hv.
  - destruct (initialize_or_resume_cases cfg env) as [[Hi Hc] | [e [Hi [He Hc]]]];
      destruct (initialize_or_resume cfg env) as [t r]; simpl in Hi; subst r;
      simpl.
    + left. auto.
    + right. exists e. split; [reflexivity |]. split; [tauto |]. tauto.
  - right. exists (AssertionError a). simpl. split; [reflexivity |].
    split; [left; eauto | tauto].
Qed.


(* ================================================================== *)
(** ** How a run ends *)
(* ================================================================== *)

Lemma valid_config_facts (cfg : Config) :
  valid_config cfg ->
  existsb (String.eqb (inference cfg)) valid_inference = true /\
  cycles cfg <> 0.
Proof.
  intros [Hi [_ [_ [Hc _]]]]. split; [apply existsb_eqb_In, Hi | lia].
Qed.

(** The body of the block for a runner whose schedule passes. *)
Lemma sampling_body_runner (cfg : Config) (env : Env) :
  valid_config cfg -> inference cfg <> "HMC" ->
  (n_samples cfg * skip cfg) mod cycles cfg = 0 ->
  exists cls,
    select_runner (inference cfg) = Some cls /\
    sampling_body cfg env MetricsSink (model_saver_of cfg) =
    (runner_body_trace cfg env cls,
     match run_failure env with
     | Some msg => Raise (ExternalError msg)
     | None =>
         Ret (Runner cls (saver_sinks MetricsSink (model_saver_of cfg)),
              Some (resolved_batch_size cfg env))
     end).
Proof.
  intros Hok Hmode Hdiv. destruct (valid_config_facts cfg Hok) as [Hvalid Hc].
  destruct (select_runner_valid _ Hvalid Hmode) as [cls Hcls].
  exists cls. split; [exact Hcls |].
  pose proof (build_sampler_runner cfg env MetricsSink (model_saver_of cfg)
                cls Hmode Hc Hdiv Hcls) as Hbuild.
  cbv zeta in Hbuild.
  rewrite (sampling_body_built cfg env _ _ _ _ Hbuild).
  reflexivity.
Qed.

Lemma evaluate_some (env : Env) (b : Z) :
  evaluate env (Some b) = (evaluation_trace env b, Ret tt).
Proof. reflexivity. Qed.


(** What the block returns or raises once lines 117-160 are through. *)
Lemma sampling_block_cases (cfg : Config) (env : Env) :
  valid_config cfg ->
  (block_entered cfg env = false /\
   snd (sampling_block cfg env) = Raise (ExternalError "cannot open sink")) \/
  (block_entered cfg env = true /\ inference cfg <> "HMC" /\
   (n_samples cfg * skip cfg) mod cycles cfg <> 0 /\
   sampling_block cfg env
   = (opened cfg ++ closed cfg, Raise (AssertionError A_divisible))) \/
  (block_entered cfg env = true /\ inference cfg = "HMC" /\
   sampling_block cfg env
   = (opened cfg ++
      [EvGetPotential (Z.of_nat (train_len env));
       EvHMCKernel false false (1 # 1000) 32;
       EvMCMC (n_samples cfg) (warmup cfg);
       EvRun (progressbar cfg)] ++ closed cfg,
      match run_failure env with
      | Some msg => Raise (ExternalError msg)
      | None => Ret (PyroMCMC, batch_size cfg)
      end)) \/
  (block_entered cfg env = true /\ inference cfg <> "HMC" /\
   (n_samples cfg * skip cfg) mod cycles cfg = 0 /\
   exists cls,
     select_runner (inference cfg) = Some cls /\
     sampling_block cfg env
     = (opened cfg ++ runner_body_trace cfg env cls ++ closed cfg,
        match run_failure env with
        | Some msg => Raise (ExternalError msg)
        | None =>
            Ret (Runner cls (saver_sinks MetricsSink (model_saver_of cfg)),
                 Some (resolved_batch_size cfg env))
        end)).
Proof.
  intros Hok. destruct (valid_config_facts cfg Hok) as [_ Hc].
  destruct (block_entered cfg env) eqn:E.
  2: { left. split; [reflexivity |].
       rewrite (sampling_block_not_entered cfg env E). reflexivity. }
  right. rewrite (sampling_block_entered cfg env E).
  destruct (string_dec (inference cfg) "HMC") as [Hmode | Hmode].
  - right. left. split; [reflexivity |]. split; [exact Hmode |].
    rewrite (sampling_body_hmc cfg env _ _ Hmode). reflexivity.
  - destruct (Z.eq_dec ((n_samples cfg * skip cfg) mod cycles cfg) 0)
      as [Hdiv | Hdiv].
    + right. right. split; [reflexivity |]. split; [exact Hmode |].
      split; [exact Hdiv |].
      destruct (sampling_body_runner cfg env Hok Hmode Hdiv)
        as [cls [Hcls Hbody]].
      exists cls. split; [exact Hcls |]. rewrite Hbody. reflexivity.
    + left. split; [reflexivity |]. split; [exact Hmode |].
      split; [exact Hdiv |].
      rewrite (sampling_body_violation cfg env _ _ Hmode Hc Hdiv).
      reflexivity.
Qed.

Lemma reaches_block_valid (cfg : Config) (env : Env) :
  snd (prepare cfg env) = Ret tt -> valid_config cfg.
Proof.
  intros Hp.
  destruct (prepare_cases cfg env) as [[_ [Hok _]] | [e [He _]]];
    [exact Hok | congruence].
Qed.






(* ================================================================== *)
(** ** The sink discipline *)
(* ================================================================== *)

Lemma sink_protocol_app (st : sinks_state) (t1 t2 : list event) :
  sink_protocol st (t1 ++ t2) =
  match sink_protocol st t1 with
  | Some st' => sink_protocol st' t2
  | None => None
  end.
Proof.
  revert st. induction t1 as [| ev t1 IH]; intros st; [reflexivity |].
  cbn [app sink_protocol].
  destruct ev; try apply IH;
    repeat match goal with
           | |- context [match ?x with _ => _ end] =>
               destruct x; try reflexivity; try apply IH
           end.
Qed.

Lemma sink_protocol_neutral (st : sinks_state) (tr : list event) :
  forallb is_sink_neutral tr = true -> sink_protocol st tr = Some st.
Proof.
  induction tr as [| ev tr IH]; [reflexivity |]. cbn [forallb].
  intros H. apply andb_true_iff in H. destruct H as [Hev H].
  destruct ev; try discriminate Hev; cbn [sink_protocol]; apply IH, H.
Qed.

(** While the metrics sink and the sinks the sampler holds are open, the
    body of the block leaves the sinks as they are. *)
Lemma sink_protocol_body (sinks : list sink) (st : sinks_state)
      (tr : list event) :
  fst st = Opened ->
  (forall s, In s sinks -> state_of st s = Opened) ->
  forallb (body_event_for sinks) tr = true ->
  sink_protocol st tr = Some st.
Proof.
  intros Hm Hs. induction tr as [| ev tr IH]; [reflexivity |]. cbn [forallb].
  intros H. apply andb_true_iff in H. destruct H as [Hev H].
  destruct ev; try discriminate Hev; cbn [sink_protocol];
    rewrite ?Hm; cbn [is_opened]; try (apply IH, H).
  simpl in Hev. apply existsb_exists in Hev. destruct Hev as [s' [Hin Heq]].
  assert (s = s') by (destruct s, s'; simpl in Heq; congruence). subst s'.
  rewrite (Hs s Hin). apply IH, H.
Qed.

Lemma sink_protocol_evaluate (st : sinks_state) (tr : list event) :
  is_opened (fst st) = false -> is_opened (snd st) = false ->
  forallb is_evaluate_event tr = true ->
  sink_protocol st tr = Some st.
Proof.
  intros H1 H2. induction tr as [| ev tr IH]; [reflexivity |]. cbn [forallb].
  intros H. apply andb_true_iff in H. destruct H as [Hev H].
  destruct ev; try discriminate Hev; cbn [sink_protocol];
    rewrite ?H1, ?H2; cbn [orb]; apply IH, H.
Qed.

Lemma write_events_for (sinks : list sink) (ws : list (sink * Z)) :
  forallb (body_event_for sinks) (write_events sinks ws) = true.
Proof.
  unfold write_events. apply forallb_forall. intros ev Hin.
  apply in_map_iff in Hin. destruct Hin as [w [<- Hw]].
  apply filter_In in Hw. destruct Hw as [_ Hw]. exact Hw.
Qed.

Lemma build_sampler_build_events (cfg : Config) (env : Env) (ms : sink)
      (mo : option sink) :
  sat is_build_event is_block_exn (build_sampler cfg env ms mo).
Proof.
  unfold build_sampler. destruct (String.eqb (inference cfg) "HMC").
  - repeat (apply sat_bind; [auto with sat | intros _]). auto with sat.
  - apply sat_bind.
    + unfold schedule, py_mod, py_floordiv.
      destruct (cycles cfg =? 0); [apply sat_raise; reflexivity |].
      rewrite !bind_ret_l. apply sat_bind; auto with sat.
    + intros se. repeat (apply sat_bind; [auto with sat | intros _]).
      apply sat_bind.
      * destruct (select_runner (inference cfg)); auto with sat.
      * intros cls. apply sat_bind; auto with sat.
Qed.

Lemma build_sampler_sinks (cfg : Config) (env : Env) (ms : sink)
      (mo : option sink) (t : list event) (mb : sampler * option Z) :
  build_sampler cfg env ms mo = (t, Ret mb) ->
  sampler_sinks (fst mb) = [] \/ sampler_sinks (fst mb) = saver_sinks ms mo.
Proof.
  unfold build_sampler. destruct (String.eqb (inference cfg) "HMC").
  - cbv [bind emit ret]. intros H. inversion H. left. reflexivity.
  - destruct (schedule _ _ _ _ _) as [ts [se | e]]; cbn [bind];
      [| discriminate].
    destruct (select_runner (inference cfg)) as [cls |];
      cbv [bind emit ret raise]; intros H; inversion H.
    right. reflexivity.
Qed.

Lemma sampling_body_events_for (cfg : Config) (env : Env) (ms : sink)
      (mo : option sink) :
  forallb (body_event_for (saver_sinks ms mo))
          (fst (sampling_body cfg env ms mo)) = true.
Proof.
  pose proof (build_sampler_build_events cfg env ms mo) as [Hev _].
  assert (Hbuild : forallb (body_event_for (saver_sinks ms mo))
                     (fst (build_sampler cfg env ms mo)) = true).
  { rewrite forallb_forall in *. intros ev Hin. specialize (Hev ev Hin).
    destruct ev; simpl in *; congruence. }
  destruct (build_sampler cfg env ms mo) as [t [mb | e]] eqn:Hb.
  - rewrite (sampling_body_built cfg env ms mo t mb Hb). cbn [fst] in *.
    rewrite forallb_app, Hbuild. cbn [forallb andb body_event_for is_body_event].
    destruct (build_sampler_sinks cfg env ms mo t mb Hb) as [-> | ->].
    + rewrite write_events_nil. reflexivity.
    + apply write_events_for.
  - rewrite (sampling_body_not_built cfg env ms mo t e Hb). exact Hbuild.
Qed.

Lemma sink_protocol_block (cfg : Config) (env : Env) :
  exists st,
    sink_protocol (Unopened, Unopened) (fst (sampling_block cfg env)) = Some st
    /\ is_opened (fst st) = false /\ is_opened (snd st) = false.
Proof.
  destruct (block_entered cfg env) eqn:E.
  - rewrite (sampling_block_entered cfg env E). cbn [fst].
    pose proof (sampling_body_events_for cfg env MetricsSink
                  (model_saver_of cfg)) as Hbody.
    unfold opened, closed, model_saver_of in *.
    destruct (save_samples cfg).
    + exists (Closed, Closed).
      cbn [app sink_protocol state_of set_state fst snd is_opened].
      rewrite sink_protocol_app.
      rewrite (sink_protocol_body [MetricsSink; SampleSink] (Opened, Opened));
        [auto | reflexivity | | exact Hbody].
      intros [] _; reflexivity.
    + exists (Closed, Unopened).
      cbn [app sink_protocol state_of set_state fst snd is_opened].
      rewrite sink_protocol_app.
      rewrite (sink_protocol_body [MetricsSink] (Opened, Unopened));
        [auto | reflexivity | | exact Hbody].
      intros s [<- | []]. reflexivity.
  - rewrite (sampling_block_not_entered cfg env E). cbn [fst].
    destruct (metrics_openable env).
    + exists (Closed, Unopened). auto.
    + exists (Unopened, Unopened). auto.
Qed.

(** Every run keeps the sink discipline: each sink is opened at most once
    and closed again if it was opened, records are written only to an open
    sink, a sampler is built and run only while the metrics sink is open,
    and the samples are collected and evaluated only after every sink has
    been closed. *)
Theorem main_follows_sink_protocol (cfg : Config) (env : Env) :
  follows_sink_protocol (fst (main cfg env)) = true.
Proof.
  unfold follows_sink_protocol.
  assert (Hprep : sink_protocol (Unopened, Unopened) (fst (prepare cfg env))
                  = Some (Unopened, Unopened)).
  { apply sink_protocol_neutral.
    pose proof (prepare_sat cfg env) as [Hev _].
    rewrite forallb_forall in *. intros ev Hin. specialize (Hev ev Hin).
    destruct ev; simpl in *; congruence. }
  destruct (sink_protocol_block cfg env) as [st [Hblock [H1 H2]]].
  destruct (main_cases cfg env)
    as [[e [_ ->]] | [[_ [e [_ ->]]] | [_ [mb [_ ->]]]]]; cbn [fst].
  - rewrite Hprep. reflexivity.
  - rewrite sink_protocol_app, Hprep. cbv beta iota.
    rewrite Hblock, H1, H2. reflexivity.
  - rewrite sink_protocol_app, Hprep. cbv beta iota.
    rewrite sink_protocol_app, Hblock. cbv beta iota.
    rewrite (sink_protocol_evaluate st _ H1 H2), H1, H2; [reflexivity |].
    apply (evaluate_sat env (snd mb)).
Qed.

(* ================================================================== *)
(** ** What reaches the sinks, the runner and the evaluation *)
(* ================================================================== *)

Lemma never_forallb (p q : event -> bool) (tr : list event) :
  forallb q tr = true -> (forall ev, q ev = true -> p ev = false) ->
  never p tr = true.
Proof.
  intros Hq H. unfold never. rewrite forallb_forall in *. intros ev Hin.
  rewrite (H ev (Hq ev Hin)). reflexivity.
Qed.

Lemma never_opened_closed (cfg : Config) (p : event -> bool) :
  (forall ev, is_open ev || is_close ev = true ->
              touches_sample_sink ev = false -> p ev = false) ->
  save_samples cfg = false ->
  never p (opened cfg) = true /\ never p (closed cfg) = true.
Proof.
  intros H Hsave. unfold opened, closed, never. rewrite Hsave. simpl.
  rewrite !H by reflexivity. split; reflexivity.
Qed.

(** In the HMC mode the sinks are opened and closed but nothing is ever
    written to them: the library sampler is not given any sink. *)
Theorem hmc_writes_nothing (cfg : Config) (env : Env) :
  inference cfg = "HMC" -> never is_write (fst (main cfg env)) = true.
Proof.
  intros Hmode.
  assert (Hprep : never is_write (fst (prepare cfg env)) = true)
    by (apply prepare_never; intros []; simpl; congruence).
  assert (Hblock : never is_write (fst (sampling_block cfg env)) = true).
  { destruct (block_entered cfg env) eqn:E.
    - rewrite (sampling_block_hmc cfg env Hmode E). cbn [fst].
      unfold opened, closed. destruct (save_samples cfg); reflexivity.
    - rewrite (sampling_block_not_entered cfg env E). cbn [fst].
      destruct (metrics_openable env); reflexivity. }
  destruct (main_cases cfg env)
    as [[e [_ ->]] | [[_ [e [_ ->]]] | [_ [mb [_ ->]]]]]; cbn [fst];
    rewrite ?never_app, ?Hprep, ?Hblock; try reflexivity.
  cbn [andb]. apply (never_forallb _ is_evaluate_event).
  - apply (evaluate_sat env (snd mb)).
  - intros []; simpl; congruence.
Qed.

Lemma hmc_writes_nothing_witness :
  inference (default_config "HMC" "he" None) = "HMC" /\
  never is_write (fst (main (default_config "HMC" "he" None) Samples.quiet_env))
  = true.
Proof.
  split; [reflexivity |].
  exact (hmc_writes_nothing (default_config "HMC" "he" None)
           Samples.quiet_env eq_refl).
Defined.

Lemma write_events_metrics_only (ws : list (sink * Z)) :
  never touches_sample_sink (write_events [MetricsSink] ws) = true.
Proof.
  unfold never, write_events. apply forallb_forall. intros ev Hin.
  apply in_map_iff in Hin. destruct Hin as [[s r] [<- Hw]].
  apply filter_In in Hw. destruct Hw as [_ Hw].
  destruct s; simpl in *; [reflexivity | discriminate].
Qed.

(** With sample saving switched off the sample sink does not exist for the
    run: it is never opened, written to or closed, and a runner is built
    with [model_saver = None]. *)
Theorem no_sample_sink_without_saving (cfg : Config) (env : Env) :
  save_samples cfg = false ->
  never touches_sample_sink (fst (main cfg env)) = true.
Proof.
  intros Hsave.
  assert (Hprep : never touches_sample_sink (fst (prepare cfg env)) = true)
    by (apply prepare_never; intros []; simpl; congruence).
  assert (Hopen : never touches_sample_sink (opened cfg) = true)
    by (unfold opened; rewrite Hsave; reflexivity).
  assert (Hclose : never touches_sample_sink (closed cfg) = true)
    by (unfold closed; rewrite Hsave; reflexivity).
  assert (Heval : forall bs, never touches_sample_sink (fst (evaluate env bs))
                             = true).
  { intros bs. apply (never_forallb _ is_evaluate_event).
    - apply (evaluate_sat env bs).
    - intros []; simpl; congruence. }
  destruct (main_cases cfg env)
    as [[e [_ ->]] | [[Hp [e [_ ->]]] | [Hp [mb [_ ->]]]]]; cbn [fst];
    [exact Hprep | |];
    rewrite ?never_app, Hprep, ?Heval; cbn [andb]; rewrite ?andb_true_r;
    (destruct (sampling_block_cases cfg env (reaches_block_valid cfg env Hp))
       as [[E _] | [[_ [_ [_ ->]]] | [[_ [_ ->]] | [_ [_ [_ [cls [_ ->]]]]]]]];
     [rewrite (sampling_block_not_entered cfg env E); cbn [fst];
      destruct (metrics_openable env); reflexivity
     | cbn [fst]; rewrite never_app, Hopen, Hclose; reflexivity
     | cbn [fst]; rewrite !never_app, Hopen, Hclose; reflexivity
     | cbn [fst]; unfold runner_body_trace, runner_args_of, model_saver_of;
       rewrite Hsave; cbn [saver_sinks];
       rewrite !never_app, Hopen, Hclose, write_events_metrics_only;
       reflexivity]).
Qed.

Lemma no_sample_sink_without_saving_witness :
  save_samples (Cases.with_batch (default_config "SGLD" "he" None) None false)
  = false /\
  never touches_sample_sink
    (fst (main (Cases.with_batch (default_config "SGLD" "he" None) None false)
               Samples.quiet_env)) = true.
Proof.
  split; [reflexivity |].
  exact (no_sample_sink_without_saving
           (Cases.with_batch (default_config "SGLD" "he" None) None false)
           Samples.quiet_env eq_refl).
Defined.



(** A run that returns has closed its sinks before it collects the samples,
    and evaluates with the configured batch size or, when none is
    configured, the training-set size, clamped to the size of the test
    set; the evaluation is the last thing it does. *)
Theorem evaluation_after_closing (cfg : Config) (env : Env) :
  snd (main cfg env) = Ret tt ->
  exists pre b,
    fst (main cfg env) = pre ++ closed cfg ++ evaluation_trace env b /\
    (batch_size cfg = Some b \/
     (batch_size cfg = None /\ inference cfg <> "HMC" /\
      b = Z.of_nat (train_len env))) /\
    Z.min b (Z.of_nat (test_len env)) <= Z.of_nat (test_len env).
Proof.
  intros Hres.
  destruct (main_cases cfg env)
    as [[e [_ Hmain]] | [[_ [e [_ Hmain]]] | [Hp [mb [Hmb Hmain]]]]];
    rewrite Hmain in *; cbn [fst snd] in *; try discriminate.
  destruct (sampling_block_cases cfg env (reaches_block_valid cfg env Hp))
    as [[_ Hb] | [[_ [_ [_ Hb]]] | [[_ [Hmode Hb]] | [_ [Hmode [_ [cls [_ Hb]]]]]]]];
    rewrite Hb in *; cbn [fst snd] in *; try discriminate;
    (destruct (run_failure env); [discriminate |]);
    inversion Hmb; subst mb; cbn [snd] in *.
  - destruct (batch_size cfg) as [b |] eqn:Hbs; [| discriminate].
    rewrite evaluate_some. cbn [fst].
    exists (fst (prepare cfg env) ++ opened cfg ++
            [EvGetPotential (Z.of_nat (train_len env));
             EvHMCKernel false false (1 # 1000) 32;
             EvMCMC (n_samples cfg) (warmup cfg);
             EvRun (progressbar cfg)]).
    exists b.
    split; [| split; [left; reflexivity | apply Z.le_min_r]].
    rewrite <- !app_assoc. reflexivity.
  - rewrite evaluate_some. cbn [fst].
    exists (fst (prepare cfg env) ++ opened cfg ++ runner_body_trace cfg env cls).
    exists (resolved_batch_size cfg env).
    split; [| split; [| apply Z.le_min_r]].
    + rewrite <- !app_assoc. reflexivity.
    + unfold resolved_batch_size. destruct (batch_size cfg); auto.
Qed.

Lemma evaluation_after_closing_witness :
  snd (main (Cases.with_batch (default_config "HMC" "he" None) (Some 64) true)
            Samples.quiet_env) = Ret tt /\
  exists pre b,
    fst (main (Cases.with_batch (default_config "HMC" "he" None) (Some 64) true)
              Samples.quiet_env)
    = pre ++ [EvClose SampleSink; EvClose MetricsSink]
          ++ evaluation_trace Samples.quiet_env b /\
    (Some 64 = Some b \/
     (Some 64 = None /\ "HMC" <> "HMC" /\ b = 2000)) /\
    Z.min b 500 <= 500.
Proof.
  split; [reflexivity |].
  exact (evaluation_after_closing
           (Cases.with_batch (default_config "HMC" "he" None) (Some 64) true)
           Samples.quiet_env eq_refl).
Defined.

(** The samples are collected only from a sampler whose run returned: a
    trace with [get_samples] comes from a run that did not fail, and it ran
    the sampler exactly once. *)
Theorem samples_only_after_successful_run (cfg : Config) (env : Env) :
  existsb is_get_samples (fst (main cfg env)) = true ->
  run_failure env = None /\
  count is_sampler_run (fst (main cfg env)) = 1%nat.
Proof.
  assert (Hnone : forall (p : event -> bool) tr,
            never p tr = true -> existsb p tr = false).
  { intros p tr. unfold never. induction tr as [| ev tr IH]; [reflexivity |].
    simpl. destruct (p ev); simpl; [discriminate | exact IH]. }
  assert (Hprep : forall p, (forall ev, is_prepare_event (resuming cfg) ev = true
                                        -> p ev = false) ->
            existsb p (fst (prepare cfg env)) = false /\
            count p (fst (prepare cfg env)) = 0%nat).
  { intros p Hp. pose proof (prepare_never cfg env p Hp) as H.
    split; [apply Hnone, H | apply never_count, H]. }
  assert (Hblock : existsb is_get_samples (fst (sampling_block cfg env)) = false).
  { apply Hnone. apply (never_forallb _ is_block_event).
    - apply (sampling_block_sat cfg env).
    - intros []; unfold is_block_event; simpl; congruence. }
  destruct (Hprep is_get_samples) as [Hp1 _];
    [intros []; simpl; congruence |].
  destruct (Hprep is_sampler_run) as [_ Hp2];
    [intros []; simpl; congruence |].
  destruct (main_cases cfg env)
    as [[e [_ ->]] | [[_ [e [_ ->]]] | [Hp [mb [Hmb ->]]]]]; cbn [fst];
    rewrite ?existsb_app, ?Hp1, ?Hblock; try discriminate.
  intros _.
  assert (Heval : count is_sampler_run (fst (evaluate env (snd mb))) = 0%nat).
  { apply (sat_count_zero _ _ _ _ (evaluate_sat env (snd mb))).
    intros []; simpl; congruence. }
  rewrite !count_app, Hp2, Heval.
  assert (Hw : forall sinks, count is_sampler_run
                               (write_events sinks (run_writes env)) = 0%nat).
  { intros sinks. apply never_count.
    apply (never_forallb _ is_write); [apply write_events_sat |].
    intros []; simpl; congruence. }
  destruct (sampling_block_cases cfg env (reaches_block_valid cfg env Hp))
    as [[_ Hb] | [[_ [_ [_ Hb]]] | [[_ [_ Hb]] | [_ [_ [_ [cls [_ Hb]]]]]]]];
    rewrite Hb in *; cbn [fst snd] in *; try discriminate;
    (destruct (run_failure env); [discriminate |]);
    (split; [reflexivity |]);
    unfold runner_body_trace; rewrite ?count_app, ?Hw;
    rewrite !count_opened by reflexivity;
    unfold closed; destruct (save_samples cfg); reflexivity.
Qed.

Lemma samples_only_after_successful_run_witness :
  existsb is_get_samples
    (fst (main (default_config "SGLD" "he" None) Samples.quiet_env)) = true /\
  run_failure Samples.quiet_env = None /\
  count is_sampler_run
    (fst (main (default_config "SGLD" "he" None) Samples.quiet_env)) = 1%nat.
Proof.
  split; [reflexivity |].
  exact (samples_only_after_successful_run (default_config "SGLD" "he" None)
           Samples.quiet_env eq_refl).
Defined.

(* ================================================================== *)
(** ** [get_data] *)
(* ================================================================== *)

Lemma py_split_nonempty (sep : Ascii.ascii) (s : string) :
  py_split sep s <> [].
Proof.
  destruct s as [| c s]; simpl; [discriminate |].
  destruct (Ascii.eqb c sep); [discriminate |].
  destruct (py_split sep s); discriminate.
Qed.

(** No part of a split contains the separator. *)
Lemma py_split_parts (sep : Ascii.ascii) (s : string) :
  Forall (fun part => has_char sep part = false) (py_split sep s).
Proof.
  induction s as [| c s IH]; simpl; [repeat constructor |].
  destruct (Ascii.eqb c sep) eqn:E; [constructor; [reflexivity | exact IH] |].
  destruct (py_split sep s) as [| part parts].
  - repeat constructor. simpl. rewrite E. reflexivity.
  - inversion IH; subst. constructor; [| assumption].
    simpl. rewrite E. assumption.
Qed.

(** A string without the separator is its own single part. *)
Lemma py_split_whole (sep : Ascii.ascii) (s : string) :
  has_char sep s = false -> py_split sep s = [s].
Proof.
  induction s as [| c s IH]; simpl; [reflexivity |].
  destruct (Ascii.eqb c sep); simpl; [discriminate |].
  intros H. rewrite (IH H). reflexivity.
Qed.

(** A split has one part more than the string has separators. *)
Lemma py_split_length (sep : Ascii.ascii) (s : string) :
  List.length (py_split sep s) = S (count_char sep s).
Proof.
  induction s as [| c s IH]; simpl; [reflexivity |].
  destruct (Ascii.eqb c sep); simpl; [rewrite IH; reflexivity |].
  pose proof (py_split_nonempty sep s) as Hne.
  destruct (py_split sep s) as [| part parts]; [contradiction |].
  exact IH.
Qed.

Lemma py_split_app (sep : Ascii.ascii) (a rest : string) :
  has_char sep a = false ->
  py_split sep (String.append a (String sep rest)) = a :: py_split sep rest.
Proof.
  induction a as [| c a IH]; simpl.
  - intros _. rewrite Ascii.eqb_refl. reflexivity.
  - destruct (Ascii.eqb c sep); simpl; [discriminate |].
    intros H. rewrite (IH H). reflexivity.
Qed.

Lemma unpack3_parts (parts : list string) (inner prior : string) :
  unpack3 parts = Ret (inner, prior) ->
  exists first, parts = [first; inner; prior].
Proof.
  destruct parts as [| a [| b [| c [| d parts]]]]; simpl; try discriminate.
  intros H. inversion H. eauto.
Qed.

Lemma get_data_fuel_S (fuel : nat) (known : string -> bool) (bs : option Z)
      (data : string) :
  get_data_fuel (S fuel) known bs data =
  if is_synthetic_name data then
    match unpack3 (py_split dot data) with
    | Raise e => Some ([], Raise e)
    | Ret (inner, prior) =>
        match get_data_fuel fuel known bs inner with
        | None => None
        | Some (t, Raise e) => Some (t, Raise e)
        | Some (t, Ret dataset) =>
            Some (t ++ [DvGetModel prior; DvSampleAllPriors;
                        DvSynthetic dataset bs]
                    ++ synthetic_artifacts,
                  Ret (SyntheticData dataset prior bs))
        end
    end
  else if known data then Some ([DvProvider data], Ret (ProvidedData data))
  else Some ([DvProvider data], Raise (ExternalError "get_data")).
Proof. reflexivity. Qed.

(** On a name without a dot [get_data] does not call itself. *)
Lemma get_data_fuel_dotless (fuel : nat) (known : string -> bool)
      (bs : option Z) (data : string) :
  has_char dot data = false ->
  get_data_fuel (S fuel) known bs data =
  Some (if is_synthetic_name data
        then ([], Raise (ValueError
                "not enough values to unpack (expected 3, got 1)"))
        else if known data then ([DvProvider data], Ret (ProvidedData data))
        else ([DvProvider data], Raise (ExternalError "get_data"))).
Proof.
  intros H. rewrite get_data_fuel_S, (py_split_whole dot data H).
  destruct (is_synthetic_name data); [reflexivity |].
  destruct (known data); reflexivity.
Qed.

Lemma get_data_fuel_two (fuel : nat) (known : string -> bool)
      (bs : option Z) (data : string) :
  get_data_fuel (S (S fuel)) known bs data = get_data_fuel 2 known bs data /\
  get_data_fuel 2 known bs data <> None.
Proof.
  rewrite !get_data_fuel_S.
  destruct (is_synthetic_name data);
    [| destruct (known data); split; [reflexivity | discriminate
                                     | reflexivity | discriminate]].
  destruct (unpack3 (py_split dot data)) as [[inner prior] | e] eqn:Hu;
    [| split; [reflexivity | discriminate]].
  apply unpack3_parts in Hu. destruct Hu as [first Hparts].
  pose proof (py_split_parts dot data) as Hall. rewrite Hparts in Hall.
  inversion Hall as [| ? ? _ Hrest]; subst.
  inversion Hrest as [| ? ? Hinner _]; subst.
  rewrite !(get_data_fuel_dotless _ known bs inner Hinner).
  destruct (is_synthetic_name inner); [split; [reflexivity | discriminate] |].
  destruct (known inner); split; reflexivity || discriminate.
Qed.

Lemma get_data_two (known : string -> bool) (bs : option Z) (data : string) :
  get_data known bs data = get_data_fuel 2 known bs data.
Proof.
  unfold get_data. destruct data as [| c data]; [reflexivity |].
  cbn [String.length]. apply get_data_fuel_two.
Qed.

(** [get_data] calls itself at most once: the name it passes on is a part
    of a split at the dots, so it has no dot and cannot be unpacked into
    three parts again.  Two levels of calls are all it ever needs, and it
    always comes to an end. *)
Theorem get_data_recursion_depth (known : string -> bool) (bs : option Z)
        (data : string) (fuel : nat) :
  (2 <= fuel)%nat ->
  get_data_fuel fuel known bs data = get_data known bs data /\
  get_data known bs data <> None.
Proof.
  intros Hfuel. rewrite get_data_two.
  destruct fuel as [| [| fuel]]; try lia. apply get_data_fuel_two.
Qed.

Lemma get_data_recursion_depth_witness :
  (2 <= 7)%nat /\
  get_data_fuel 7 (fun _ => true) None "synthetic.UCI_boston.gaussian"
  = get_data (fun _ => true) None "synthetic.UCI_boston.gaussian" /\
  get_data (fun _ => true) None "synthetic.UCI_boston.gaussian" <> None.
Proof.
  split; [lia |].
  apply (get_data_recursion_depth (fun _ => true) None
           "synthetic.UCI_boston.gaussian" 7).
  lia.
Defined.

Lemma is_synthetic_name_prefix (rest : string) :
  is_synthetic_name (String.append "synthetic" rest) = true.
Proof. unfold is_synthetic_name. destruct rest; reflexivity. Qed.

(** A name of three parts separated by dots, the first starting with
    ["synthetic"] and the middle one a dataset of the provider, loads that
    dataset, builds a model with the third part as weight prior, samples its
    priors, wraps both into the synthetic dataset and saves the dataset and
    then the model.  What follows ["synthetic"] in the first part is
    ignored. *)
Theorem get_data_synthetic (known : string -> bool) (bs : option Z)
        (suffix inner prior : string) :
  has_char dot suffix = false ->
  has_char dot inner = false ->
  has_char dot prior = false ->
  is_synthetic_name inner = false ->
  known inner = true ->
  get_data known bs
    (String.append "synthetic"
       (String.append suffix
          (String dot (String.append inner (String dot prior)))))
  = Some ([DvProvider inner; DvGetModel prior; DvSampleAllPriors;
           DvSynthetic (ProvidedData inner) bs;
           DvSave "synthetic_data.pt"; DvSave "true_model.pt"],
          Ret (SyntheticData (ProvidedData inner) prior bs)).
Proof.
  intros Hs Hi Hp Hplain Hknown. rewrite get_data_two.
  assert (Hsplit : py_split dot
            (String.append "synthetic"
               (String.append suffix
                  (String dot (String.append inner (String dot prior)))))
          = [String.append "synthetic" suffix; inner; prior]).
  { replace (String.append "synthetic"
               (String.append suffix
                  (String dot (String.append inner (String dot prior)))))
      with (String.append (String.append "synthetic" suffix)
              (String dot (String.append inner (String dot prior))))
      by reflexivity.
    rewrite py_split_app by (simpl; exact Hs).
    rewrite py_split_app by exact Hi.
    rewrite (py_split_whole dot prior Hp). reflexivity. }
  rewrite get_data_fuel_S, is_synthetic_name_prefix, Hsplit. cbn [unpack3].
  rewrite (get_data_fuel_dotless 0 known bs inner Hi), Hplain, Hknown.
  reflexivity.
Qed.

Lemma get_data_synthetic_witness :
  get_data (fun _ => true) (Some 32) "synthetic_v2.UCI_boston.laplace"
  = Some ([DvProvider "UCI_boston"; DvGetModel "laplace"; DvSampleAllPriors;
           DvSynthetic (ProvidedData "UCI_boston") (Some 32);
           DvSave "synthetic_data.pt"; DvSave "true_model.pt"],
          Ret (SyntheticData (ProvidedData "UCI_boston") "laplace" (Some 32))).
Proof.
  apply (get_data_synthetic (fun _ => true) (Some 32) "_v2" "UCI_boston"
           "laplace"); reflexivity.
Defined.

(** A synthetic name that does not have exactly two dots fails on the
    unpacking of line 90 before any dataset is loaded, any model is built or
    anything is saved. *)
Theorem get_data_malformed_name (known : string -> bool) (bs : option Z)
        (data : string) :
  is_synthetic_name data = true ->
  count_char dot data <> 2%nat ->
  exists msg, get_data known bs data = Some ([], Raise (ValueError msg)).
Proof.
  intros Hsyn Hdots. rewrite get_data_two, get_data_fuel_S, Hsyn.
  pose proof (py_split_length dot data) as Hlen.
  destruct (py_split dot data) as [| a [| b [| c [| d parts]]]];
    simpl in Hlen; cbn [unpack3]; try (eexists; reflexivity).
  lia.
Qed.

Lemma get_data_malformed_name_witness :
  is_synthetic_name "synthetic.UCI_boston" = true /\
  count_char dot "synthetic.UCI_boston" <> 2%nat /\
  exists msg,
    get_data (fun _ => true) None "synthetic.UCI_boston"
    = Some ([], Raise (ValueError msg)).
Proof.
  split; [reflexivity |]. split; [discriminate |].
  apply (get_data_malformed_name (fun _ => true) None "synthetic.UCI_boston");
    [reflexivity | discriminate].
Defined.

(** Whatever the name: artifacts are saved only by a call that returns a
    synthetic dataset, and then they are the dataset and the model, in this
    order; the dataset a synthetic one is built on always comes straight
    from the provider, never from another synthetic one. *)
Theorem get_data_artifacts (known : string -> bool) (bs : option Z)
        (data : string) (tr : list data_event) (r : result dataset) :
  get_data known bs data = Some (tr, r) ->
  match r with
  | Ret (ProvidedData name) => name = data /\ tr = [DvProvider data]
  | Ret (SyntheticData base prior bs') =>
      exists inner, base = ProvidedData inner /\ bs' = bs /\
                    filter is_save tr = synthetic_artifacts
  | Raise _ => filter is_save tr = []
  end.
Proof.
  rewrite get_data_two, get_data_fuel_S.
  destruct (is_synthetic_name data).
  - destruct (unpack3 (py_split dot data)) as [[inner prior] | e] eqn:Hu.
    + apply unpack3_parts in Hu. destruct Hu as [first Hparts].
      pose proof (py_split_parts dot data) as Hall. rewrite Hparts in Hall.
      inversion Hall as [| ? ? _ Hrest]; subst.
      inversion Hrest as [| ? ? Hinner _]; subst.
      rewrite (get_data_fuel_dotless 0 known bs inner Hinner).
      destruct (is_synthetic_name inner);
        [intros H; inversion H; reflexivity |].
      destruct (known inner); intros H; inversion H; [| reflexivity].
      exists inner. auto.
    + intros H. inversion H. reflexivity.
  - destruct (known data); intros H; inversion H; [auto | reflexivity].
Qed.

Lemma get_data_artifacts_witness :
  get_data (fun _ => true) None "synthetic.synthetic.gaussian"
  = Some ([], Raise (ValueError
             "not enough values to unpack (expected 3, got 1)")) /\
  filter is_save (@nil data_event) = [].
Proof.
  split; [reflexivity |].
  exact (get_data_artifacts (fun _ => true) None "synthetic.synthetic.gaussian"
           [] (Raise (ValueError
                 "not enough values to unpack (expected 3, got 1)"))
           eq_refl).
Defined.
